(** * Commitment-payment ledger and reminders (src/app.py)

    A shallow embedding of the Flask views of [src/app.py] that create
    commitments ("engagements"), record and edit payments ("paiements") and
    send WhatsApp reminders, over an explicit model of the SQLAlchemy
    session (pending state against committed state) and of the messaging
    gateway (a log of calls).

    Amounts are Python [float]s, that is IEEE binary64 numbers: they are
    modelled by Rocq's primitive floats, whose operations are the same
    binary64 operations. *)

From Stdlib Require Import ZArith List String Ascii Bool Lia.
From Stdlib Require Import Floats Uint63 DecimalString DecimalNat.
Import ListNotations.

Local Open Scope string_scope.
Local Open Scope Z_scope.

(* ================================================================== *)
(** * Python values *)
(* ================================================================== *)

Module Py.

(** Truth value of an optional string: [None] and [''] are false. *)
Definition truthy (s : option string) : bool :=
  match s with
  | None => false
  | Some s => negb (String.eqb s "")
  end.

(** [a or b] for an optional string [a] and a string [b]. *)
Definition or_else (a : option string) (b : string) : string :=
  match a with
  | Some s => if String.eqb s "" then b else s
  | None => b
  end.

(** [x <= 0] on floats; false when [x] is a NaN. *)
Definition le0 (x : float) : bool := (x <=? 0)%float.

(** [sum(xs)]: the accumulator starts at 0 and adds the items from left
    to right, in binary64 (the plain summation of Python up to 3.11; later
    versions compensate the rounding errors of a sum of floats). *)
Definition sum (xs : list float) : float :=
  fold_left PrimFloat.add xs 0%float.

(** [max(a, b)]: [b] replaces [a] only when [b > a]. *)
Definition max (a b : float) : float :=
  if (a <? b)%float then b else a.

(** [str(n)] for a natural number. *)
Definition str_nat (n : nat) : string :=
  NilEmpty.string_of_uint (Nat.to_uint n).

(** The line feed of an f-string's [\n]. *)
Definition nl : string := String (ascii_of_nat 10) EmptyString.

(** Exceptions raised on the paths of the views. *)
Inductive Exn : Type :=
| ValueError
| TypeError
| AttributeError.

Definition exn_eqb (a b : Exn) : bool :=
  match a, b with
  | ValueError, ValueError => true
  | TypeError, TypeError => true
  | AttributeError, AttributeError => true
  | _, _ => false
  end.

(** [datetime.date] and [datetime.datetime] (UTC, seconds within the day). *)
Record date : Type := mkDate { year : Z; month : Z; day : Z }.

Record datetime : Type := mkDatetime { dt_date : date; dt_seconds : Z }.

Definition date_compare (a b : date) : comparison :=
  match Z.compare (year a) (year b) with
  | Eq => match Z.compare (month a) (month b) with
          | Eq => Z.compare (day a) (day b)
          | c => c
          end
  | c => c
  end.

(** [a <= b] on datetimes. *)
Definition datetime_leb (a b : datetime) : bool :=
  match date_compare (dt_date a) (dt_date b) with
  | Lt => true
  | Eq => Z.leb (dt_seconds a) (dt_seconds b)
  | Gt => false
  end.

End Py.

Import Py.

(* ================================================================== *)
(** * The models and the store *)
(* ================================================================== *)

(** [models.py] is not among the sources: the records below carry the
    columns that [app.py] and [init_db.py] read and write. *)

Record CarteBapteme : Type := mkCarte {
  carte_id : Z;
  carte_numero : string;
  carte_nom : option string
}.

Record Membre : Type := mkMembre {
  membre_id : Z;
  code_membre : string;
  cate_id : option Z;
  telephone : option string;
  apikey_callmebot : option string
}.

Record Engagement : Type := mkEngagement {
  engagement_id : Z;
  eng_membre_id : Z;
  montant_total : float;
  date_limite : date;
  description : string;
  statut : string
}.

Record Paiement : Type := mkPaiement {
  paiement_id : Z;
  pai_engagement_id : Z;
  montant : float;
  date_paiement : date
}.

Record Notification : Type := mkNotification {
  notification_id : Z;
  notif_membre_id : Z;
  notif_engagement_id : Z;
  notif_message : string;
  notif_statut : string;
  date_envoi : datetime
}.

(** The tables of the database, rows in insertion order. *)
Record Store : Type := mkStore {
  cartes : list CarteBapteme;
  membres : list Membre;
  engagements : list Engagement;
  paiements : list Paiement;
  notifications : list Notification
}.

(** The status a settled commitment carries: the bulk reminder leaves out
    the rows whose status is this one. *)
Definition PAYE : string := "payé".

(** Modelled from the spec: the column default of [Engagement.statut]
    (declared in the absent [models.py]); a new commitment is OPEN, the
    value that the edit form of [modifier_engagement] also falls back to. *)
Definition EN_COURS : string := "en cours".

(** Primary key given to a new row: one more than the greatest key. *)
Definition next_id {A : Type} (key : A -> Z) (rows : list A) : Z :=
  1 + fold_right (fun r acc => Z.max (key r) acc) 0 rows.

(** [Model.query.get(id)]: the row with that primary key, if any; the form
    field arrives already coerced to an integer, [None] when it is absent
    or no integer (no row matches then). *)
Definition query_get {A : Type} (key : A -> Z) (rows : list A)
  (id : option Z) : option A :=
  match id with
  | None => None
  | Some i => find (fun r => Z.eqb (key r) i) rows
  end.

(** The relationships [engagement.membre], [membre.cartebapteme] and
    [engagement.paiements]. *)
Definition engagement_membre (s : Store) (e : Engagement) : option Membre :=
  find (fun m => Z.eqb (membre_id m) (eng_membre_id e)) (membres s).

Definition membre_cartebapteme (s : Store) (m : Membre) : option CarteBapteme :=
  match cate_id m with
  | None => None
  | Some c => find (fun k => Z.eqb (carte_id k) c) (cartes s)
  end.

Definition engagement_paiements (s : Store) (e : Engagement) : list Paiement :=
  filter (fun p => Z.eqb (pai_engagement_id p) (engagement_id e)) (paiements s).

(** [Membre.query.filter_by(telephone=username).first()]. *)
Definition membre_par_telephone (s : Store) (username : string)
  : option Membre :=
  find (fun m => match telephone m with
                 | Some t => String.eqb t username
                 | None => false
                 end) (membres s).

(** [sum(p.montant for p in engagement.paiements)]. *)
Definition total_paye (s : Store) (e : Engagement) : float :=
  Py.sum (map montant (engagement_paiements s e)).

(** Modelled from the spec: [Engagement.montant_restant] is declared in the
    absent [models.py]; [amountRemaining] "returns max(0, total - sum of
    the payments)". *)
Definition montant_restant (s : Store) (e : Engagement) : float :=
  Py.max 0%float (montant_total e - total_paye s e)%float.

(** Row updates and insertions. *)
Definition add_engagement (e : Engagement) (s : Store) : Store :=
  mkStore (cartes s) (membres s) (engagements s ++ [e]) (paiements s)
          (notifications s).

Definition add_paiement (p : Paiement) (s : Store) : Store :=
  mkStore (cartes s) (membres s) (engagements s) (paiements s ++ [p])
          (notifications s).

Definition add_notification (n : Notification) (s : Store) : Store :=
  mkStore (cartes s) (membres s) (engagements s) (paiements s)
          (notifications s ++ [n]).

Definition update_paiement (id : Z) (f : Paiement -> Paiement) (s : Store)
  : Store :=
  mkStore (cartes s) (membres s) (engagements s)
          (map (fun p => if Z.eqb (paiement_id p) id then f p else p)
               (paiements s))
          (notifications s).

(** The assignments [paiement.date_paiement = d] and
    [paiement.montant = v]. *)
Definition set_date_paiement (d : date) (p : Paiement) : Paiement :=
  mkPaiement (paiement_id p) (pai_engagement_id p) (montant p) d.

Definition set_montant (v : float) (p : Paiement) : Paiement :=
  mkPaiement (paiement_id p) (pai_engagement_id p) v (date_paiement p).

Definition update_engagement (id : Z) (f : Engagement -> Engagement)
  (s : Store) : Store :=
  mkStore (cartes s) (membres s)
          (map (fun e => if Z.eqb (engagement_id e) id then f e else e)
               (engagements s))
          (paiements s) (notifications s).

(* ================================================================== *)
(** * The world a view runs in *)
(* ================================================================== *)

(** One call of [envoyer_whatsapp], with the gateway's answer. *)
Record Envoi : Type := mkEnvoi {
  envoi_telephone : option string;
  envoi_apikey : option string;
  envoi_message : string;
  envoi_ok : bool
}.

(** A flashed message: a fixed text, or a prefix followed by [str(e)]. *)
Inductive Message : Type :=
| Msg (text : string)
| MsgExn (prefix : string) (e : Exn).

(** [receipt_data] of the payment form. *)
Record Receipt : Type := mkReceipt {
  rc_membre : option string;
  rc_montant : float;
  rc_date_paiement : string;
  rc_engagement_date : string;
  rc_total_engage : float;
  rc_reste : float
}.

Inductive Response : Type :=
| Redirect (endpoint : string)
| Render (template : string) (receipt : option Receipt)
| NotFound
| InternalServerError (e : Exn).

(** [db] is what has been committed, [session] what the SQLAlchemy session
    holds (committed rows and pending changes); [whatsapp] logs the gateway
    calls and [flashes] the flashed messages, oldest first. *)
Record World : Type := mkWorld {
  db : Store;
  session : Store;
  whatsapp : list Envoi;
  flashes : list (Message * string)
}.

(** What the views take from outside [app.py]: functions of the Python
    library, the clock and the messaging gateway. *)
Record Env : Type := mkEnv {
  (** [float(s)] on a string: [None] stands for [ValueError]. *)
  float_of_str : string -> option float;
  (** [datetime.strptime(s, '%Y-%m-%d').date()]: [None] for [ValueError]. *)
  strptime_ymd : string -> option date;
  (** [d.strftime('%d/%m/%Y')]. *)
  strftime_dmy : date -> string;
  (** The format specification [:.2f]. *)
  fmt2f : float -> string;
  (** [s.strip()]. *)
  strip : string -> string;
  (** [datetime.utcnow()]. *)
  utcnow : datetime;
  (** Modelled from the spec: [utils.envoyer_whatsapp] is absent; the
      gateway "accepts (destination, credential, message) and reports
      success/failure". The first argument counts the earlier calls. *)
  gateway : nat -> option string -> option string -> string -> bool
}.

(* ================================================================== *)
(** * The monad of a view: state, exceptions and early [return] *)
(* ================================================================== *)

Inductive Outcome (A : Type) : Type :=
| Normal (a : A)
| Return (r : Response)
| Raise (e : Exn).

Arguments Normal {A} a.
Arguments Return {A} r.
Arguments Raise {A} e.

Definition View (A : Type) : Type := World -> Outcome A * World.

Definition ret {A : Type} (a : A) : View A := fun w => (Normal a, w).

Definition bind {A B : Type} (m : View A) (k : A -> View B) : View B :=
  fun w =>
    match m w with
    | (Normal a, w') => k a w'
    | (Return r, w') => (Return r, w')
    | (Raise e, w') => (Raise e, w')
    end.

Declare Scope view_scope.
Delimit Scope view_scope with view.
Notation "x <- m ;; k" := (bind m (fun x => k))
  (at level 61, m at next level, right associativity) : view_scope.
Notation "m ;; k" := (bind m (fun _ => k))
  (at level 61, right associativity) : view_scope.
Local Open Scope view_scope.

(** [raise e] and [return r]. *)
Definition raise {A : Type} (e : Exn) : View A := fun w => (Raise e, w).

Definition return_ {A : Type} (r : Response) : View A :=
  fun w => (Return r, w).

(** [try: body / except <caught>: handler]: a [return] in the body leaves
    the view, an exception that is not caught goes on. *)
Definition try_except {A : Type} (body : View A) (caught : Exn -> bool)
  (handler : Exn -> View A) : View A :=
  fun w =>
    match body w with
    | (Raise e, w') => if caught e then handler e w' else (Raise e, w')
    | r => r
    end.

(** [except Exception] and [except (ValueError, TypeError)]. *)
Definition Exception (e : Exn) : bool := true.

Definition ValueError_TypeError (e : Exn) : bool :=
  exn_eqb e ValueError || exn_eqb e TypeError.

(** [o.attr] on an object that may be [None]. *)
Definition getattr {A B : Type} (o : option A) (attr : A -> B) : View B :=
  match o with
  | Some a => ret (attr a)
  | None => raise AttributeError
  end.

Definition get_session : View Store := fun w => (Normal (session w), w).

Definition flash (m : Message) (category : string) : View unit :=
  fun w =>
    (Normal tt,
     mkWorld (db w) (session w) (whatsapp w) (flashes w ++ [(m, category)])).

(** [db.session.add(...)] and attribute assignment act on the session. *)
Definition on_session (f : Store -> Store) : View unit :=
  fun w => (Normal tt, mkWorld (db w) (f (session w)) (whatsapp w) (flashes w)).

(** [db.session.commit()]: the session's state becomes the database's.
    Every float is kept as it is; the SQLite driver stores a NaN as NULL,
    which this model does not follow. *)
Definition commit : View unit :=
  fun w => (Normal tt, mkWorld (session w) (session w) (whatsapp w) (flashes w)).

(** [db.session.rollback()]: pending changes are dropped. *)
Definition rollback : View unit :=
  fun w => (Normal tt, mkWorld (db w) (db w) (whatsapp w) (flashes w)).

(** The response of a view; an exception that leaves it is a 500. *)
Definition run (v : View Response) (w : World) : Response * World :=
  match v w with
  | (Normal r, w') => (r, w')
  | (Return r, w') => (r, w')
  | (Raise e, w') => (InternalServerError e, w')
  end.

(** [str(x)] of an optional string inside an f-string. *)
Definition str_opt (o : option string) : string :=
  match o with
  | Some s => s
  | None => "None"
  end.

Inductive Method : Type := GET | POST.

(* ================================================================== *)
(** * The views of app.py *)
(* ================================================================== *)

Record EngagementForm : Type := mkEngagementForm {
  ef_membre_id : option Z;
  ef_montant : option string;
  ef_date_limite : option string;
  ef_description : option string
}.

Record PaiementForm : Type := mkPaiementForm {
  pf_engagement_id : option Z;
  pf_montant : option string;
  pf_date_paiement : option string
}.

Record ModifierPaiementForm : Type := mkModifierPaiementForm {
  mp_montant : option string;
  mp_date_paiement : option string
}.

Record ModifierEngagementForm : Type := mkModifierEngagementForm {
  me_montant_total : option string;
  me_date_limite : option string;
  me_description : option string;
  me_statut : option string
}.

Section Views.

Variable env : Env.

(** [float(x)] and [datetime.strptime(x, '%Y-%m-%d').date()] on a form
    field: [TypeError] on [None], [ValueError] on a string that does not
    parse. *)
Definition py_float (x : option string) : View float :=
  match x with
  | None => raise TypeError
  | Some s =>
      match float_of_str env s with
      | Some v => ret v
      | None => raise ValueError
      end
  end.

Definition py_strptime (x : option string) : View date :=
  match x with
  | None => raise TypeError
  | Some s =>
      match strptime_ymd env s with
      | Some d => ret d
      | None => raise ValueError
      end
  end.

(** [request.form.get(name, '').strip()]. *)
Definition form_get_strip (x : option string) (default : string) : string :=
  strip env (match x with Some s => s | None => default end).

(** [envoyer_whatsapp(telephone, apikey, message)]: the call is logged with
    the gateway's answer. *)
Definition envoyer_whatsapp (tel key : option string) (message : string)
  : View bool :=
  fun w =>
    let ok := gateway env (List.length (whatsapp w)) tel key message in
    (Normal ok,
     mkWorld (db w) (session w)
             (whatsapp w ++ [mkEnvoi tel key message ok]) (flashes w)).

(** The amount of the forms that create rows:
    [montant = float(montant_str)], then [ValueError] when [montant <= 0]. *)
Definition montant_positif (x : option string) : View float :=
  m <- py_float x ;;
  if le0 m then raise ValueError else ret m.

(** ** [ajouter_engagement] (lines 415-463) *)

Definition ajouter_engagement_post (f : EngagementForm) : View unit :=
  try_except
    (let description := form_get_strip (ef_description f) "" in
     s <- get_session ;;
     match query_get membre_id (membres s) (ef_membre_id f) with
     | None =>
         flash (Msg "Membre introuvable") "danger" ;;
         return_ (Redirect "ajouter_engagement")
     | Some membre =>
         montant <- try_except (montant_positif (ef_montant f))
                      ValueError_TypeError
                      (fun _ =>
                         flash (Msg "Le montant doit être un nombre positif")
                               "warning" ;;
                         return_ (Redirect "ajouter_engagement")) ;;
         date_limite <- try_except (py_strptime (ef_date_limite f))
                      ValueError_TypeError
                      (fun _ =>
                         flash (Msg "Format de date incorrect") "danger" ;;
                         return_ (Redirect "ajouter_engagement")) ;;
         on_session (fun s =>
           add_engagement
             (mkEngagement (next_id engagement_id (engagements s))
                           (membre_id membre) montant date_limite description
                           EN_COURS) s) ;;
         commit ;;
         (if truthy (apikey_callmebot membre) then
            s <- get_session ;;
            nom <- getattr (membre_cartebapteme s membre) carte_nom ;;
            envoyer_whatsapp (telephone membre) (apikey_callmebot membre)
              ("Bonjour " ++ str_opt nom
               ++ ", vous avez un nouvel engagement de " ++ fmt2f env montant
               ++ "$ à régler avant le " ++ strftime_dmy env date_limite
               ++ ".") ;;
            ret tt
          else ret tt) ;;
         flash (Msg "Engagement ajouté avec succès!") "success" ;;
         return_ (Redirect "liste_engagements")
     end)
    Exception
    (fun e => rollback ;; flash (MsgExn "Erreur: " e) "danger").

Definition ajouter_engagement (method : Method) (f : EngagementForm)
  : View Response :=
  match method with
  | POST => ajouter_engagement_post f
  | GET => ret tt
  end ;;
  ret (Render "engagements/ajouter.html" None).

(** ** [souscrire_engagement_membre] (lines 777-824); [username] is
    [current_user.username]. *)

Definition souscrire_engagement_membre (username : string) (method : Method)
  (f : EngagementForm) : View Response :=
  s <- get_session ;;
  match membre_par_telephone s username with
  | None =>
      flash (Msg "Votre profil membre n'est pas trouvé.") "danger" ;;
      return_ (Redirect "accueil_membre")
  | Some membre =>
      match method with
      | POST =>
          let description := form_get_strip (ef_description f) "" in
          montant <- try_except (montant_positif (ef_montant f)) Exception
                       (fun _ =>
                          flash (Msg "Le montant doit être un nombre positif")
                                "warning" ;;
                          return_ (Redirect "souscrire_engagement_membre")) ;;
          date_limite <- try_except (py_strptime (ef_date_limite f)) Exception
                       (fun _ =>
                          flash (Msg "Format de date incorrect") "danger" ;;
                          return_ (Redirect "souscrire_engagement_membre")) ;;
          on_session (fun s =>
            add_engagement
              (mkEngagement (next_id engagement_id (engagements s))
                            (membre_id membre) montant date_limite description
                            EN_COURS) s) ;;
          commit ;;
          (if truthy (apikey_callmebot membre) then
             s <- get_session ;;
             let nom := match membre_cartebapteme s membre with
                        | Some c => str_opt (carte_nom c)
                        | None => code_membre membre
                        end in
             envoyer_whatsapp (telephone membre) (apikey_callmebot membre)
               ("Bonjour " ++ nom ++ ", votre engagement de "
                ++ fmt2f env montant ++ "$ a été enregistré. "
                ++ "Date limite : " ++ strftime_dmy env date_limite ++ ".") ;;
             ret tt
           else ret tt) ;;
          flash (Msg "Engagement souscrit avec succès !") "success" ;;
          return_ (Redirect "mes_engagements")
      | GET => ret (Render "engagements/souscrire_membre.html" None)
      end
  end.

(** ** [modifier_engagement] (lines 468-501) *)

Definition modifier_engagement (id : Z) (f : ModifierEngagementForm)
  : View Response :=
  s <- get_session ;;
  match query_get engagement_id (engagements s) (Some id) with
  | None => return_ NotFound
  | Some engagement =>
      try_except
        (let description := form_get_strip (me_description f) "" in
         let statut := form_get_strip (me_statut f) "en cours" in
         montant <- try_except (montant_positif (me_montant_total f))
                      ValueError_TypeError
                      (fun _ =>
                         flash (Msg "Le montant doit être un nombre positif")
                               "warning" ;;
                         return_ (Redirect "liste_engagements")) ;;
         date_limite <- try_except (py_strptime (me_date_limite f))
                      ValueError_TypeError
                      (fun _ =>
                         flash (Msg "Date invalide") "danger" ;;
                         return_ (Redirect "liste_engagements")) ;;
         on_session (update_engagement id (fun e =>
           mkEngagement (engagement_id e) (eng_membre_id e) montant date_limite
                        description statut)) ;;
         commit ;;
         flash (Msg "Engagement modifié avec succès") "success")
        Exception
        (fun e =>
           rollback ;;
           flash (MsgExn "Erreur lors de la modification : " e) "danger") ;;
      ret (Redirect "liste_engagements")
  end.

(** ** [ajouter_paiement] (lines 516-588) *)

Definition ajouter_paiement_post (f : PaiementForm) : View unit :=
  try_except
    (s <- get_session ;;
     match query_get engagement_id (engagements s) (pf_engagement_id f) with
     | None =>
         flash (Msg "Engagement introuvable") "danger" ;;
         return_ (Redirect "ajouter_paiement")
     | Some engagement =>
         montant <- try_except (montant_positif (pf_montant f)) Exception
                      (fun _ =>
                         flash (Msg "Montant invalide") "warning" ;;
                         return_ (Redirect "ajouter_paiement")) ;;
         date_paiement <- try_except (py_strptime (pf_date_paiement f))
                      Exception
                      (fun _ => ret (dt_date (utcnow env))) ;;
         on_session (fun s =>
           add_paiement
             (mkPaiement (next_id paiement_id (paiements s))
                         (engagement_id engagement) montant date_paiement) s) ;;
         commit ;;
         s <- get_session ;;
         let membre := engagement_membre s engagement in
         match membre with
         | Some m =>
             if truthy (apikey_callmebot m) then
               nom <- getattr (membre_cartebapteme s m) carte_nom ;;
               envoyer_whatsapp (telephone m) (apikey_callmebot m)
                 ("Bonjour " ++ or_else nom (code_membre m)
                  ++ ", votre paiement de " ++ fmt2f env montant
                  ++ "$ a été enregistré pour l'engagement prévu le "
                  ++ strftime_dmy env (date_limite engagement) ++ ".") ;;
               ret tt
             else ret tt
         | None => ret tt
         end ;;
         m <- getattr membre (fun m => m) ;;
         nom <- getattr (membre_cartebapteme s m) carte_nom ;;
         return_
           (Render "paiements/ajouter.html"
              (Some (mkReceipt nom montant
                       (strftime_dmy env date_paiement)
                       (strftime_dmy env (date_limite engagement))
                       (montant_total engagement)
                       (montant_restant s engagement))))
     end)
    Exception
    (fun e => rollback ;; flash (MsgExn "Erreur: " e) "danger").

Definition ajouter_paiement (method : Method) (f : PaiementForm)
  : View Response :=
  match method with
  | POST => ajouter_paiement_post f
  | GET => ret tt
  end ;;
  ret (Render "paiements/ajouter.html" None).

(** ** [modifier_paiement] (lines 592-614) *)

Definition modifier_paiement (id : Z) (f : ModifierPaiementForm)
  : View Response :=
  s <- get_session ;;
  match query_get paiement_id (paiements s) (Some id) with
  | None => return_ NotFound
  | Some paiement =>
      try_except
        (montant <- py_float (mp_montant f) ;;
         if le0 montant then
           flash (Msg "Montant invalide") "warning" ;;
           return_ (Redirect "liste_paiements")
         else
           try_except
             (d <- py_strptime (mp_date_paiement f) ;;
              on_session (update_paiement id (set_date_paiement d)))
             Exception
             (fun _ =>
                flash (Msg "Date incorrecte") "danger" ;;
                return_ (Redirect "liste_paiements")) ;;
           on_session (update_paiement id (set_montant montant)) ;;
           commit ;;
           flash (Msg "Paiement modifié avec succès") "success")
        Exception
        (fun e => rollback ;; flash (MsgExn "Erreur : " e) "danger") ;;
      ret (Redirect "liste_paiements")
  end.

(** ** Notifications *)

(** [membre and membre.apikey_callmebot and membre.telephone]. *)
Definition coordonnees_completes (membre : option Membre) : bool :=
  match membre with
  | Some m => truthy (apikey_callmebot m) && truthy (telephone m)
  | None => false
  end.

(** The reminder of [notifier_membre_engagement] (lines 645-657). *)
Definition message_rappel (s : Store) (m : Membre) (engagement : Engagement)
  : string :=
  let total_paye := total_paye s engagement in
  let reste_a_payer := montant_restant s engagement in
  let nom_affiche :=
    match membre_cartebapteme s m with
    | Some c => if truthy (carte_nom c) then str_opt (carte_nom c)
                else code_membre m
    | None => code_membre m
    end in
  "*CBCA VULUMBI - RAPPEL D'ENGAGEMENT*" ++ nl ++ nl
  ++ "Cher(e) *" ++ nom_affiche ++ "*," ++ nl ++ nl
  ++ "Vous avez souscrit un engagement de *"
  ++ fmt2f env (montant_total engagement) ++ "$* "
  ++ "avec une date d'échéance fixée au *"
  ++ strftime_dmy env (date_limite engagement) ++ "*." ++ nl ++ nl
  ++ "📊 *État de paiement* :" ++ nl
  ++ "- Montant total engagé : " ++ fmt2f env (montant_total engagement)
  ++ "$" ++ nl
  ++ "- Montant déjà payé : " ++ fmt2f env total_paye ++ "$" ++ nl
  ++ "- Reste à payer : " ++ fmt2f env reste_a_payer ++ "$" ++ nl ++ nl
  ++ "ℹ️ Pour toute question, contactez le trésorier au +243976543210."
  ++ nl ++ nl
  ++ "*Merci pour votre contribution à notre communauté!*".

(** ** [notifier_membre_engagement] (lines 634-677) *)

Definition notifier_membre_engagement (id : Z) : View Response :=
  s <- get_session ;;
  match query_get engagement_id (engagements s) (Some id) with
  | None => return_ NotFound
  | Some engagement =>
      let membre := engagement_membre s engagement in
      match membre with
      | Some m =>
          if coordonnees_completes membre then
            let message := message_rappel s m engagement in
            envoyer_whatsapp (telephone m) (apikey_callmebot m) message ;;
            on_session (fun s =>
              add_notification
                (mkNotification (next_id notification_id (notifications s))
                                (membre_id m) (engagement_id engagement)
                                message "envoyée" (utcnow env)) s) ;;
            commit ;;
            flash (Msg "Notification envoyée avec succès.") "success"
          else
            flash (Msg "Notification impossible : coordonnées du membre incomplètes.")
                  "warning"
      | None =>
          flash (Msg "Notification impossible : coordonnées du membre incomplètes.")
                "warning"
      end ;;
      ret (Redirect "liste_engagements")
  end.

(** ** [notifier_tous_membres] (lines 682-693) *)

(** The body of [for e in engagements], with the counter [cpt]. *)
Fixpoint notifier_boucle (engagements : list Engagement) (cpt : nat)
  : View nat :=
  match engagements with
  | [] => ret cpt
  | e :: rest =>
      s <- get_session ;;
      let membre := engagement_membre s e in
      match membre with
      | Some m =>
          if coordonnees_completes membre then
            nom <- getattr (membre_cartebapteme s m) carte_nom ;;
            envoyer_whatsapp (telephone m) (apikey_callmebot m)
              ("Bonjour " ++ or_else nom (code_membre m)
               ++ ", votre engagement de " ++ fmt2f env (montant_total e)
               ++ "$ expire le " ++ strftime_dmy env (date_limite e)
               ++ ". Solde restant : " ++ fmt2f env (montant_restant s e)
               ++ "$.") ;;
            notifier_boucle rest (S cpt)
          else notifier_boucle rest cpt
      | None => notifier_boucle rest cpt
      end
  end.

(** [Engagement.query.filter(Engagement.statut != 'payé').all()]. *)
Definition engagements_non_payes (s : Store) : list Engagement :=
  filter (fun e => negb (String.eqb (statut e) PAYE)) (engagements s).

Definition notifier_tous_membres : View Response :=
  s <- get_session ;;
  cpt <- notifier_boucle (engagements_non_payes s) 0%nat ;;
  flash (Msg (str_nat cpt ++ " notification(s) envoyée(s).")) "info" ;;
  ret (Redirect "liste_engagements").

End Views.

(* ================================================================== *)
(** * The periodic reminder (tasks.py, absent from the sources) *)
(* ================================================================== *)

Section Tick.

Variable env : Env.

(** The outcomes of a NotificationRecord. *)
Definition SENT : string := "SENT".
Definition FAILED : string := "FAILED".
Definition SKIPPED_NO_CREDENTIAL : string := "SKIPPED_NO_CREDENTIAL".

Definition sent_or_failed (n : Notification) : bool :=
  String.eqb (notif_statut n) SENT || String.eqb (notif_statut n) FAILED.

(** Modelled from the spec: the due-date proximity of a commitment is "a
    configurable parameter rather than a hard-coded constant". *)
Variable proche : datetime -> Engagement -> bool.

(** Modelled from the spec: the idempotence guard of the periodic tick,
    "has Commitment X received an automatic NotificationRecord since period
    start T" (a SENT or FAILED one). *)
Definition deja_notifie (s : Store) (debut : datetime) (e : Engagement)
  : bool :=
  existsb (fun n => Z.eqb (notif_engagement_id n) (engagement_id e)
                    && sent_or_failed n
                    && datetime_leb debut (date_envoi n))
          (notifications s).

(** Modelled from the spec: the candidates of a tick are the OPEN
    commitments, near their due date, that have "not already received a
    SENT or FAILED NotificationRecord since the start of the current
    period". *)
Definition candidats (s : Store) (debut now : datetime) : list Engagement :=
  filter (fun e => proche now e && negb (deja_notifie s debut e))
         (engagements_non_payes s).

(** Modelled from the spec: dispatch and record for one commitment. "If the
    Member has no messaging credential or no destination identifier, the
    outcome is SKIPPED_NO_CREDENTIAL and no gateway call occurs. Otherwise
    call the Gateway [...]. Gateway success -> SENT; Gateway failure ->
    FAILED. Every outcome - including skip - is appended as a
    NotificationRecord." A commitment without member is skipped with an
    empty message. *)
Definition notifier_automatique (now : datetime) (e : Engagement)
  : View unit :=
  s <- get_session ;;
  let membre := engagement_membre s e in
  r <- match membre with
       | Some m =>
           let message := message_rappel env s m e in
           if coordonnees_completes membre then
             ok <- envoyer_whatsapp env (telephone m) (apikey_callmebot m)
                     message ;;
             ret (message, if ok then SENT else FAILED)
           else ret (message, SKIPPED_NO_CREDENTIAL)
       | None => ret ("", SKIPPED_NO_CREDENTIAL)
       end ;;
  on_session (fun s =>
    add_notification
      (mkNotification (next_id notification_id (notifications s))
                      (eng_membre_id e) (engagement_id e)
                      (fst r) (snd r) now) s) ;;
  commit.

Fixpoint tick_boucle (now : datetime) (es : list Engagement) : View unit :=
  match es with
  | [] => ret tt
  | e :: rest => notifier_automatique now e ;; tick_boucle now rest
  end.

(** Modelled from the spec: [notifier_engagements_proches], the job that
    [app.py] schedules every 24 hours and that [test_job] runs by hand;
    [debut] is the start of the current period and [now] the clock. *)
Definition notifier_engagements_proches (debut now : datetime) : View unit :=
  s <- get_session ;;
  tick_boucle now (candidats s debut now).

(** The records that a run appended to the session's notifications. *)
Definition nouvelles (avant apres : World) : list Notification :=
  skipn (List.length (notifications (session avant)))
        (notifications (session apres)).

(** How many SENT or FAILED records of commitment [i] a list holds. *)
Definition nb_sent_or_failed (i : Z) (l : list Notification) : nat :=
  List.length
    (filter (fun n => Z.eqb (notif_engagement_id n) i && sent_or_failed n) l).

End Tick.

(* ================================================================== *)
(** * A concrete environment *)
(* ================================================================== *)

Module Demo.

Definition digit_of (c : ascii) : option Z :=
  let n := Z.of_nat (nat_of_ascii c) in
  if (48 <=? n) && (n <=? 57) then Some (n - 48) else None.

(** The digits of [s] read as a decimal number, after [acc]. *)
Fixpoint digits (s : string) (acc : Z) : option Z :=
  match s with
  | EmptyString => Some acc
  | String c rest =>
      match digit_of c with
      | Some d => digits rest (10 * acc + d)
      | None => None
      end
  end.

(** Splits [s] at the first occurrence of [sep]. *)
Fixpoint split_at (sep : ascii) (s : string) : string * option string :=
  match s with
  | EmptyString => (EmptyString, None)
  | String c rest =>
      if Ascii.eqb c sep then (EmptyString, Some rest)
      else let (a, b) := split_at sep rest in (String c a, b)
  end.

Definition float_of_Z (n : Z) : float := PrimFloat.of_uint63 (Uint63.of_Z n).

(** [float(s)] on the plain literals [d..d], [d..d.d..d], [d..d.] and
    [.d..d] and their negations, of at most 15 digits: the binary64 number
    nearest to the decimal value, which is the correctly rounded quotient
    of two integers that binary64 holds exactly. Other strings are taken
    not to parse. *)
Definition float_of_decimal (s : string) : option float :=
  let (neg, body) :=
    match s with
    | String "-"%char rest => (true, rest)
    | _ => (false, s)
    end in
  let (int_part, frac) := split_at "."%char body in
  let frac_part := match frac with Some f => f | None => EmptyString end in
  let n := (String.length int_part + String.length frac_part)%nat in
  if (n =? 0)%nat || (15 <? n)%nat then None
  else
    match digits int_part 0, digits frac_part 0 with
    | Some i, Some f =>
        let scale := 10 ^ Z.of_nat (String.length frac_part) in
        let v := (float_of_Z (i * scale + f) / float_of_Z scale)%float in
        Some (if neg then (- v)%float else v)
    | _, _ => None
    end.

Definition leap (y : Z) : bool :=
  ((y mod 4 =? 0) && negb (y mod 100 =? 0)) || (y mod 400 =? 0).

Definition days_in_month (y m : Z) : Z :=
  if m =? 2 then (if leap y then 29 else 28)
  else if (m =? 4) || (m =? 6) || (m =? 9) || (m =? 11) then 30
  else 31.

(** [strptime(s, '%Y-%m-%d')] on the zero-padded form [YYYY-MM-DD]. *)
Definition strptime_iso (s : string) : option date :=
  let (ys, r1) := split_at "-"%char s in
  match r1 with
  | None => None
  | Some r1 =>
      let (ms, r2) := split_at "-"%char r1 in
      match r2 with
      | None => None
      | Some ds =>
          if (String.length ys =? 4)%nat && (String.length ms =? 2)%nat
             && (String.length ds =? 2)%nat then
            match digits ys 0, digits ms 0, digits ds 0 with
            | Some y, Some m, Some d =>
                if (1 <=? y) && (1 <=? m) && (m <=? 12) && (1 <=? d)
                   && (d <=? days_in_month y m)
                then Some (mkDate y m d) else None
            | _, _, _ => None
            end
          else None
      end
  end.

Definition str_Z (n : Z) : string := str_nat (Z.to_nat n).

Definition pad2 (n : Z) : string :=
  if n <? 10 then "0" ++ str_Z n else str_Z n.

Definition pad4 (n : Z) : string :=
  if n <? 10 then "000" ++ str_Z n
  else if n <? 100 then "00" ++ str_Z n
  else if n <? 1000 then "0" ++ str_Z n
  else str_Z n.

(** [d.strftime('%d/%m/%Y')]. *)
Definition strftime_fr (d : date) : string :=
  pad2 (day d) ++ "/" ++ pad2 (month d) ++ "/" ++ pad4 (year d).

(** [format(x, '.2f')]: the exact value of [x] rounded to hundredths, ties
    to even. *)
Definition format_2f (x : float) : string :=
  match Prim2SF x with
  | S754_zero s => if s then "-0.00" else "0.00"
  | S754_infinity s => if s then "-inf" else "inf"
  | S754_nan => "nan"
  | S754_finite s m e =>
      let num := Zpos m * 100 * 2 ^ Z.max e 0 in
      let den := 2 ^ Z.max (- e) 0 in
      let q := num / den in
      let r := num mod den in
      let c := if 2 * r <? den then q
               else if den <? 2 * r then q + 1
               else if Z.even q then q else q + 1 in
      (if s then "-" else "") ++ str_Z (c / 100) ++ "." ++ pad2 (c mod 100)
  end.

Definition is_space (c : ascii) : bool :=
  let n := nat_of_ascii c in
  (n =? 32)%nat || ((9 <=? n)%nat && (n <=? 13)%nat).

Fixpoint lstrip (s : string) : string :=
  match s with
  | String c rest => if is_space c then lstrip rest else s
  | EmptyString => EmptyString
  end.

Fixpoint rstrip (s : string) : string :=
  match s with
  | String c rest =>
      match rstrip rest with
      | EmptyString => if is_space c then EmptyString
                       else String c EmptyString
      | r => String c r
      end
  | EmptyString => EmptyString
  end.

(** [s.strip()] for ASCII white space. *)
Definition strip_ascii (s : string) : string := rstrip (lstrip s).

(** A clock reading, and gateways: one that always succeeds, one that
    always fails, one that fails on every odd-indexed call. *)
Definition maintenant : datetime := mkDatetime (mkDate 2025 3 10) 36000.

Definition env_of (g : nat -> option string -> option string -> string -> bool)
  : Env :=
  mkEnv float_of_decimal strptime_iso strftime_fr format_2f strip_ascii
        maintenant g.

Definition env_ok : Env := env_of (fun _ _ _ _ => true).
Definition env_ko : Env := env_of (fun _ _ _ _ => false).
Definition env_impair : Env := env_of (fun n _ _ _ => Nat.even n).

(** A database: Kavira has a card and a key, Paul has a key but no card,
    Alice has a card but no key. *)
Definition store0 : Store :=
  mkStore
    [ mkCarte 1 "CB001" (Some "Kavira Marie");
      mkCarte 2 "CB004" (Some "Kambale Alice") ]
    [ mkMembre 1 "CBCA-VUL-0001" (Some 1) (Some "+243970000001")
               (Some "APIKEY0001");
      mkMembre 2 "CBCA-VUL-0002" None (Some "+243970000002")
               (Some "APIKEY0002");
      mkMembre 3 "CBCA-VUL-0003" (Some 2) (Some "+243970000003") None ]
    [ mkEngagement 1 1 (float_of_Z 100) (mkDate 2025 4 1) "Construction"
                   EN_COURS;
      mkEngagement 2 2 (float_of_Z 50) (mkDate 2025 4 15) "Chorale" EN_COURS;
      mkEngagement 3 3 (float_of_Z 200) (mkDate 2025 5 1) "Jeunesse" EN_COURS ]
    [] [].

Definition world0 : World := mkWorld store0 store0 [] [].

End Demo.

(** Worlds reached from [world0], used in the examples below. *)
Module Scenario.
Import Demo.

(** Kavira's commitment of 100 receives a payment of 100. *)
Definition paiement_total : Response * World :=
  run (ajouter_paiement env_ok POST
         (mkPaiementForm (Some 1) (Some "100") (Some "2025-03-09"))) world0.

(** A manual reminder for Alice, who has no key. *)
Definition rappel_sans_cle : Response * World :=
  run (notifier_membre_engagement env_ok 3) world0.

(** The same reminder a second time. *)
Definition rappel_sans_cle_bis : Response * World :=
  run (notifier_membre_engagement env_ok 3) (snd rappel_sans_cle).

(** Only Kavira's and Alice's commitments are in the database. *)
Definition world_deux : World :=
  let s := mkStore (cartes store0) (membres store0)
             [ mkEngagement 1 1 (float_of_Z 100) (mkDate 2025 4 1)
                            "Construction" EN_COURS;
               mkEngagement 3 3 (float_of_Z 200) (mkDate 2025 5 1)
                            "Jeunesse" EN_COURS ]
             [] [] in
  mkWorld s s [] [].

Definition rappel_tous : Response * World :=
  run (notifier_tous_membres env_ok) world_deux.

(** A commitment of 0.80 subscribed by Kavira, paid by 0.70 then 0.10. *)
Definition centimes : World :=
  let w1 := snd (run (souscrire_engagement_membre env_ok "+243970000001" POST
                        (mkEngagementForm None (Some "0.80")
                           (Some "2025-06-30") (Some "Offrande"))) world0) in
  let w2 := snd (run (ajouter_paiement env_ok POST
                        (mkPaiementForm (Some 4) (Some "0.70")
                           (Some "2025-03-09"))) w1) in
  snd (run (ajouter_paiement env_ok POST
              (mkPaiementForm (Some 4) (Some "0.10") (Some "2025-03-10"))) w2).

End Scenario.

(** What the claims speak about. *)

(** The status of every commitment agrees with its payments: SETTLED
    exactly when the paid sum reaches the total. *)
Definition statut_recalcule (s : Store) : Prop :=
  forall e, In e (engagements s) ->
    statut e = PAYE <-> (montant_total e <=? total_paye s e)%float = true.

(** The form fields that the views refuse or accept. *)
Definition montant_refuse (env : Env) (x : option string) : Prop :=
  match x with
  | None => True
  | Some s =>
      match float_of_str env s with
      | None => True
      | Some v => le0 v = true
      end
  end.

Definition montant_accepte (env : Env) (x : option string) (v : float)
  : Prop :=
  exists s, x = Some s /\ float_of_str env s = Some v /\ le0 v = false.

Definition date_refusee (env : Env) (x : option string) : Prop :=
  match x with
  | None => True
  | Some s => strptime_ymd env s = None
  end.

Definition date_acceptee (env : Env) (x : option string) (d : date) : Prop :=
  exists s, x = Some s /\ strptime_ymd env s = Some d.

(** The record that [notifier_membre_engagement] appends. *)
Definition notification_envoyee (env : Env) (s : Store) (m : Membre)
  (e : Engagement) : Notification :=
  mkNotification (next_id notification_id (notifications s)) (membre_id m)
                 (engagement_id e) (message_rappel env s m e) "envoyée"
                 (utcnow env).

(** The commitments of [es] whose member can be reached. *)
Definition joignables (s : Store) (es : list Engagement) : list Engagement :=
  filter (fun e => coordonnees_completes (engagement_membre s e)) es.

(** Every reachable member of [es] has a baptism card. *)
Definition cartes_presentes (s : Store) (es : list Engagement) : Prop :=
  forall e m, In e es -> engagement_membre s e = Some m ->
    coordonnees_completes (Some m) = true ->
    membre_cartebapteme s m <> None.

(** The commitment that the creation views insert. *)
Definition nouvel_engagement (env : Env) (s : Store) (m : Membre) (v : float)
  (d : date) (f : EngagementForm) : Engagement :=
  mkEngagement (next_id engagement_id (engagements s)) (membre_id m) v d
               (form_get_strip env (ef_description f) "") EN_COURS.

(** The date kept for a payment: the submitted one when it parses, the
    current date otherwise. *)
Definition date_retenue (env : Env) (x : option string) : date :=
  match x with
  | Some s =>
      match strptime_ymd env s with
      | Some d => d
      | None => dt_date (utcnow env)
      end
  | None => dt_date (utcnow env)
  end.

(** The payment that [ajouter_paiement] inserts. *)
Definition nouveau_paiement (env : Env) (s : Store) (e : Engagement)
  (v : float) (f : PaiementForm) : Paiement :=
  mkPaiement (next_id paiement_id (paiements s)) (engagement_id e) v
             (date_retenue env (pf_date_paiement f)).

(* ================================================================== *)
(** * Helpers and decorators of app.py *)
(* ================================================================== *)

Module PyStr.

(** [c in s] for a character. *)
Fixpoint contains (c : ascii) (s : string) : bool :=
  match s with
  | EmptyString => false
  | String d rest => Ascii.eqb d c || contains c rest
  end.

(** [s.rsplit(sep, 1)] when [sep] occurs in [s]: what is before the last
    [sep] and what is after it; [None] when [sep] does not occur. *)
Fixpoint rsplit1 (sep : ascii) (s : string) : option (string * string) :=
  match s with
  | EmptyString => None
  | String c rest =>
      match rsplit1 sep rest with
      | Some (h, t) => Some (String c h, t)
      | None => if Ascii.eqb c sep then Some (EmptyString, rest) else None
      end
  end.

(** [s.lower()] on the ASCII letters; the other bytes are kept. (No other
    character lowers to an ASCII letter of the extensions below.) *)
Definition lower_char (c : ascii) : ascii :=
  let n := nat_of_ascii c in
  if (65 <=? n)%nat && (n <=? 90)%nat then ascii_of_nat (n + 32) else c.

Fixpoint lower (s : string) : string :=
  match s with
  | EmptyString => EmptyString
  | String c rest => String (lower_char c) (lower rest)
  end.

(** The class [[0-9]] of a regular expression. *)
Definition is_digit (c : ascii) : bool :=
  let n := nat_of_ascii c in (48 <=? n)%nat && (n <=? 57)%nat.

(** Every character of [s] is a digit. *)
Fixpoint tous_chiffres (s : string) : bool :=
  match s with
  | EmptyString => true
  | String c rest => is_digit c && tous_chiffres rest
  end.

(** The number that a string of decimal digits writes, leading zeros
    allowed. *)
Definition lire_nat (s : string) : option nat :=
  option_map Nat.of_uint (NilEmpty.uint_of_string s).

(** [n] copies of the character "0". *)
Fixpoint zeros (n : nat) : string :=
  match n with
  | O => EmptyString
  | S k => String "0"%char (zeros k)
  end.

(** The format specification [:04d] on an integer: the sign, when there is
    one, then zeros up to a width of 4, then the decimal digits. *)
Definition format_04d (n : Z) : string :=
  let d := str_nat (Z.to_nat (Z.abs n)) in
  if n <? 0 then "-" ++ zeros (3 - String.length d) ++ d
  else zeros (4 - String.length d) ++ d.

End PyStr.

Import PyStr.

(** [app.config['ALLOWED_EXTENSIONS']] (line 25). *)
Definition ALLOWED_EXTENSIONS : list string := ["png"; "jpg"; "jpeg"; "gif"].

(** [allowed_file] (lines 60-61). *)
Definition allowed_file (filename : string) : bool :=
  contains "."%char filename
  && match rsplit1 "."%char filename with
     | Some (_, ext) => existsb (String.eqb (lower ext)) ALLOWED_EXTENSIONS
     | None => false
     end.

(** The rest of the pattern of [telephone_valide] after the optional "+":
    [[0-9]{9,15}$], [n] digits being read already. [$] matches at the end
    of the string and before a line feed that ends it. *)
Fixpoint chiffres_puis_fin (s : string) (n : nat) : bool :=
  match s with
  | EmptyString => (9 <=? n)%nat && (n <=? 15)%nat
  | String c rest =>
      if is_digit c then chiffres_puis_fin rest (S n)
      else Ascii.eqb c (ascii_of_nat 10) && String.eqb rest EmptyString
           && (9 <=? n)%nat && (n <=? 15)%nat
  end.

(** [telephone_valide] (lines 63-64): whether
    [re.match(r'^\+?[0-9]{9,15}$', numero)] finds a match. *)
Definition telephone_valide (numero : string) : bool :=
  match numero with
  | String c rest =>
      if Ascii.eqb c "+"%char then chiffres_puis_fin rest 0
      else chiffres_puis_fin numero 0
  | EmptyString => chiffres_puis_fin numero 0
  end.

(** [Membre.query.order_by(Membre.id.desc()).first()]. *)
Fixpoint dernier_membre (ms : list Membre) : option Membre :=
  match ms with
  | [] => None
  | m :: rest =>
      match dernier_membre rest with
      | Some m' => if membre_id m' <? membre_id m then Some m else Some m'
      | None => Some m
      end
  end.

(** The number and the code of [generer_code_membre] (lines 66-69). *)
Definition numero_suivant (s : Store) : Z :=
  match dernier_membre (membres s) with
  | None => 1
  | Some m => membre_id m + 1
  end.

Definition generer_code_membre (s : Store) : string :=
  "CBCA-VUL-" ++ format_04d (numero_suivant s).

(** [current_user]: the columns of [models.User] that the views read;
    [None] stands for the anonymous user, for which [is_authenticated] is
    false. *)
Record User : Type := mkUser { username : string; role : string }.

(** [role_required] (lines 82-91) with its [roles], around a view [f]. *)
Definition role_required (roles : list string) (current_user : option User)
  (f : View Response) : View Response :=
  match current_user with
  | Some u =>
      if existsb (String.eqb (role u)) roles then f
      else flash (Msg "Accès non autorisé") "danger" ;;
           ret (Redirect "accueil")
  | None =>
      flash (Msg "Accès non autorisé") "danger" ;;
      ret (Redirect "accueil")
  end.

(** The view of [/mes-engagements/souscrire] under its decorator
    [@role_required('membre')] (lines 774-777): the view reads
    [current_user.username]. ([@login_required] of flask_login is applied
    outside of it.) *)
Definition souscrire_engagement_membre_route (env : Env)
  (current_user : option User) (method : Method) (f : EngagementForm)
  : View Response :=
  role_required ["membre"] current_user
    (u <- getattr current_user username ;;
     souscrire_engagement_membre env u method f).

(** An environment whose [float] also reads "nan", as Python's does. *)
Definition env_nan : Env :=
  mkEnv (fun s => if String.eqb s "nan" then Some PrimFloat.nan
                  else Demo.float_of_decimal s)
        Demo.strptime_iso Demo.strftime_fr Demo.format_2f Demo.strip_ascii
        Demo.maintenant (fun _ _ _ _ => true).

(** Every table has distinct primary keys. *)
Definition ids_distincts (s : Store) : Prop :=
  NoDup (map engagement_id (engagements s))
  /\ NoDup (map paiement_id (paiements s))
  /\ NoDup (map notification_id (notifications s)).

(** A world between two requests: nothing is pending in the session and
    the keys are distinct. *)
Definition monde_sain (w : World) : Prop :=
  session w = db w /\ ids_distincts (db w).

(** The same environment with another gateway. *)
Definition avec_gateway
  (g : nat -> option string -> option string -> string -> bool) (env : Env)
  : Env :=
  mkEnv (float_of_str env) (strptime_ymd env) (strftime_dmy env) (fmt2f env)
        (strip env) (utcnow env) g.

(** The world without the answers of the gateway. *)
Definition sans_reponses (w : World) : World :=
  mkWorld (db w) (session w)
          (map (fun c => mkEnvoi (envoi_telephone c) (envoi_apikey c)
                           (envoi_message c) true) (whatsapp w))
          (flashes w).

(** A view whose response and world are the same with any two gateways,
    the recorded answers apart. *)
Definition indifferente_au_gateway (V : Env -> View Response) : Prop :=
  forall env g1 g2 w,
    fst (run (V (avec_gateway g1 env)) w) = fst (run (V (avec_gateway g2 env)) w)
    /\ sans_reponses (snd (run (V (avec_gateway g1 env)) w))
       = sans_reponses (snd (run (V (avec_gateway g2 env)) w)).

(* ================================================================== *)
(** * Facts about Python values *)
(* ================================================================== *)

(** Unfolds the operations of the view monad. *)
Ltac view_unfold :=
  cbv beta iota zeta delta
    [run bind try_except ret return_ raise flash commit rollback on_session
     get_session getattr envoyer_whatsapp montant_positif py_float
     py_strptime Exception ValueError_TypeError].

(** Case analysis on the first [match] or [if] of the goal. *)
Ltac case_step :=
  match goal with
  | |- context [match ?x with _ => _ end] =>
      lazymatch x with
      | context [match _ with _ => _ end] => fail
      | _ => destruct x eqn:?
      end
  end.

(** Rewrites the hypotheses with the equations of a case analysis. *)
Ltac use_cases :=
  unfold montant_refuse, montant_accepte, date_refusee, date_acceptee in *;
  repeat match goal with
         | H : exists _, _ |- _ => destruct H
         | H : _ /\ _ |- _ => destruct H
         end;
  subst;
  repeat match goal with
         | E : ?x = _, H : context [?x] |- _ => rewrite E in H
         | E : ?x = _ |- context [?x] => rewrite E
         end.

Lemma ltb_zero_leb (x : float) :
  (0 <? x)%float = true -> (0 <=? x)%float = true.
Proof.
  rewrite FloatAxioms.ltb_spec, FloatAxioms.leb_spec.
  replace (Prim2SF 0) with (S754_zero false) by reflexivity.
  destruct (Prim2SF x) as [s | s | | s m e]; try destruct s; cbn;
    intros H; try discriminate H; reflexivity.
Qed.

Lemma ltb_zero_asym (x : float) :
  (0 <? x)%float = true -> (x <? 0)%float = false.
Proof.
  rewrite !FloatAxioms.ltb_spec.
  replace (Prim2SF 0) with (S754_zero false) by reflexivity.
  destruct (Prim2SF x) as [s | s | | s m e]; try destruct s; cbn;
    intros H; try discriminate H; reflexivity.
Qed.

Lemma max_zero_nonneg (x : float) :
  (0 <=? Py.max 0 x)%float = true /\ (Py.max 0 x <? 0)%float = false.
Proof.
  unfold Py.max. destruct (0 <? x)%float eqn:H.
  - split; [apply ltb_zero_leb | apply ltb_zero_asym]; exact H.
  - split; reflexivity.
Qed.

Lemma sum_from (xs : list float) (a x : float) :
  fold_left PrimFloat.add (xs ++ [x]) a
  = (fold_left PrimFloat.add xs a + x)%float.
Proof.
  revert a. induction xs as [| y ys IH]; intros a; simpl.
  - reflexivity.
  - apply IH.
Qed.

Lemma sum_app_one (xs : list float) (x : float) :
  Py.sum (xs ++ [x]) = (Py.sum xs + x)%float.
Proof. unfold Py.sum. apply sum_from. Qed.

(* ================================================================== *)
(** * The remaining amount *)
(* ================================================================== *)

(** C4: for every commitment, whatever the payments (over-payment
    included), the remaining amount is [max(0, total - sum of the
    payments)], and it is never negative: it is at least 0 and it is not
    below 0. *)
Theorem montant_restant_max_zero (s : Store) (e : Engagement) :
  montant_restant s e
  = Py.max 0 (montant_total e - Py.sum (map montant (engagement_paiements s e)))
  /\ (0 <=? montant_restant s e)%float = true
  /\ (montant_restant s e <? 0)%float = false.
Proof.
  split; [reflexivity |]. unfold montant_restant. apply max_zero_nonneg.
Qed.

(** An over-paid commitment: 100 pledged, 60 paid twice, nothing remains. *)
Example montant_restant_surpaye :
  let e := mkEngagement 1 1 (Demo.float_of_Z 100) (mkDate 2025 4 1) "" EN_COURS in
  let s := mkStore [] [] [e]
             [ mkPaiement 1 1 (Demo.float_of_Z 60) (mkDate 2025 3 1);
               mkPaiement 2 1 (Demo.float_of_Z 60) (mkDate 2025 3 2) ] [] in
  total_paye s e = Demo.float_of_Z 120
  /\ montant_restant s e = 0%float.
Proof. split; reflexivity. Qed.

(** The spec's example: 100 pledged, 40 then 60 paid; 60 remain after the
    first payment and 0 after the second. *)
Example montant_restant_40_60 :
  let e := mkEngagement 1 1 (Demo.float_of_Z 100) (mkDate 2025 4 1) "" EN_COURS in
  let p1 := mkPaiement 1 1 (Demo.float_of_Z 40) (mkDate 2025 3 1) in
  let p2 := mkPaiement 2 1 (Demo.float_of_Z 60) (mkDate 2025 3 2) in
  montant_restant (mkStore [] [] [e] [p1] []) e = Demo.float_of_Z 60
  /\ montant_restant (mkStore [] [] [e] [p1; p2] []) e = 0%float.
Proof. split; reflexivity. Qed.

(* ================================================================== *)
(** * Payments and the status of a commitment *)
(* ================================================================== *)

(** The payment views never write to the table of commitments. *)
Lemma ajouter_paiement_engagements (env : Env) (method : Method)
  (f : PaiementForm) (w : World) :
  session w = db w ->
  engagements (db (snd (run (ajouter_paiement env method f) w)))
  = engagements (db w)
  /\ engagements (session (snd (run (ajouter_paiement env method f) w)))
     = engagements (db w).
Proof.
  intros Hs. unfold ajouter_paiement, ajouter_paiement_post. view_unfold.
  destruct method; simpl; [auto using f_equal |].
  repeat (case_step; simpl; try rewrite Hs; auto).
Qed.

Lemma modifier_paiement_engagements (env : Env) (id : Z)
  (f : ModifierPaiementForm) (w : World) :
  session w = db w ->
  engagements (db (snd (run (modifier_paiement env id f) w)))
  = engagements (db w)
  /\ engagements (session (snd (run (modifier_paiement env id f) w)))
     = engagements (db w).
Proof.
  intros Hs. unfold modifier_paiement. view_unfold.
  repeat (case_step; simpl; try rewrite Hs; auto).
Qed.

(** The status is written by the edit form of the commitment alone, which
    stores the submitted value. *)
Lemma modifier_engagement_accepte (env : Env) (id : Z)
  (f : ModifierEngagementForm) (e : Engagement) (w : World) (v : float)
  (d : date) :
  query_get engagement_id (engagements (session w)) (Some id) = Some e ->
  montant_accepte env (me_montant_total f) v ->
  date_acceptee env (me_date_limite f) d ->
  db (snd (run (modifier_engagement env id f) w))
  = update_engagement id
      (fun e => mkEngagement (engagement_id e) (eng_membre_id e) v d
                  (form_get_strip env (me_description f) "")
                  (form_get_strip env (me_statut f) "en cours"))
      (session w).
Proof.
  intros He Hv Hd. unfold modifier_engagement. view_unfold. rewrite He.
  use_cases. reflexivity.
Qed.

Example modifier_engagement_statut :
  map statut
    (engagements
       (db (snd (run (modifier_engagement Demo.env_ok 1
                        (mkModifierEngagementForm (Some "100")
                           (Some "2025-04-01") (Some "Construction")
                           (Some "payé")))
                     Demo.world0))))
  = [PAYE; EN_COURS; EN_COURS].
Proof. reflexivity. Qed.

(** C1, as the code has it: recording a payment or editing one leaves
    every commitment as it was, its status included, whatever the sum of
    the payments becomes; no payment mutation moves a commitment to SETTLED
    or back to OPEN. ([w] starts a request: its session holds nothing
    pending.) *)
Theorem paiement_ne_recalcule_pas_statut (env : Env) (w : World) :
  session w = db w ->
  (forall method f,
     engagements (db (snd (run (ajouter_paiement env method f) w)))
     = engagements (db w))
  /\ (forall id f,
     engagements (db (snd (run (modifier_paiement env id f) w)))
     = engagements (db w)).
Proof.
  intros Hs. split; intros.
  - apply ajouter_paiement_engagements; exact Hs.
  - apply modifier_paiement_engagements; exact Hs.
Qed.

(** C1 fails on the code: in [world0] every status agrees with the
    payments; once Kavira's commitment of 100 has received a payment of
    100, it is paid in full and its status is still "en cours". *)
Lemma paiement_total_statut_inchange :
  statut_recalcule (db Demo.world0)
  /\ (exists e, In e (engagements (db (snd Scenario.paiement_total)))
        /\ (montant_total e
            <=? total_paye (db (snd Scenario.paiement_total)) e)%float = true
        /\ statut e = EN_COURS)
  /\ ~ statut_recalcule (db (snd Scenario.paiement_total)).
Proof.
  split; [| split].
  - intros e He. simpl in He.
    destruct He as [<- | [<- | [<- | []]]]; vm_compute;
      split; intros H; discriminate H.
  - exists (mkEngagement 1 1 (Demo.float_of_Z 100) (mkDate 2025 4 1)
              "Construction" EN_COURS).
    split; [vm_compute; left; reflexivity |].
    split; vm_compute; reflexivity.
  - intros H.
    specialize (H (mkEngagement 1 1 (Demo.float_of_Z 100) (mkDate 2025 4 1)
                     "Construction" EN_COURS)).
    assert (Hin : In (mkEngagement 1 1 (Demo.float_of_Z 100) (mkDate 2025 4 1)
                        "Construction" EN_COURS)
                     (engagements (db (snd Scenario.paiement_total))))
      by (vm_compute; left; reflexivity).
    apply H in Hin. destruct Hin as [_ Hback].
    assert (Hpaid : statut (mkEngagement 1 1 (Demo.float_of_Z 100)
                              (mkDate 2025 4 1) "Construction" EN_COURS) = PAYE)
      by (apply Hback; vm_compute; reflexivity).
    vm_compute in Hpaid. discriminate Hpaid.
Qed.

(** A request on [world0] for the theorem above. *)
Lemma paiement_ne_recalcule_pas_statut_world0 :
  engagements (db (snd Scenario.paiement_total)) = engagements (db Demo.world0).
Proof.
  exact (proj1 (paiement_ne_recalcule_pas_statut Demo.env_ok Demo.world0 eq_refl)
           POST (mkPaiementForm (Some 1) (Some "100") (Some "2025-03-09"))).
Defined.

(* ================================================================== *)
(** * The manual reminder of one commitment *)
(* ================================================================== *)

Lemma notifier_membre_engagement_incomplet (env : Env) (id : Z)
  (e : Engagement) (w : World) :
  query_get engagement_id (engagements (session w)) (Some id) = Some e ->
  coordonnees_completes (engagement_membre (session w) e) = false ->
  run (notifier_membre_engagement env id) w
  = (Redirect "liste_engagements",
     mkWorld (db w) (session w) (whatsapp w)
       (flashes w
        ++ [(Msg "Notification impossible : coordonnées du membre incomplètes.",
             "warning")])).
Proof.
  intros He Hc. unfold notifier_membre_engagement. view_unfold.
  rewrite He.
  destruct (engagement_membre (session w) e) as [m |] eqn:Hm;
    [rewrite Hc |]; reflexivity.
Qed.

Lemma notifier_membre_engagement_complet (env : Env) (id : Z)
  (e : Engagement) (m : Membre) (w : World) :
  query_get engagement_id (engagements (session w)) (Some id) = Some e ->
  engagement_membre (session w) e = Some m ->
  coordonnees_completes (Some m) = true ->
  run (notifier_membre_engagement env id) w
  = (Redirect "liste_engagements",
     mkWorld
       (add_notification (notification_envoyee env (session w) m e) (session w))
       (add_notification (notification_envoyee env (session w) m e) (session w))
       (whatsapp w
        ++ [mkEnvoi (telephone m) (apikey_callmebot m)
              (message_rappel env (session w) m e)
              (gateway env (List.length (whatsapp w)) (telephone m)
                 (apikey_callmebot m) (message_rappel env (session w) m e))])
       (flashes w ++ [(Msg "Notification envoyée avec succès.", "success")])).
Proof.
  intros He Hm Hc. unfold notifier_membre_engagement. view_unfold.
  rewrite He, Hm, Hc. reflexivity.
Qed.

(** C3, as the code has it: a manual reminder for a commitment whose
    member is missing, or has no messaging key or no telephone, calls the
    gateway not at all and appends no NotificationRecord (the database and
    the session stay as they were; only a warning is flashed). When the
    member has both, the gateway is called once and one record of status
    "envoyée" is appended and committed, whatever the gateway answers. *)
Theorem notifier_membre_engagement_trace (env : Env) (id : Z)
  (e : Engagement) (w : World) :
  query_get engagement_id (engagements (session w)) (Some id) = Some e ->
  let w' := snd (run (notifier_membre_engagement env id) w) in
  (coordonnees_completes (engagement_membre (session w) e) = false ->
     whatsapp w' = whatsapp w
     /\ db w' = db w
     /\ session w' = session w)
  /\ (forall m,
        engagement_membre (session w) e = Some m ->
        coordonnees_completes (Some m) = true ->
        (exists ok,
           whatsapp w'
           = (whatsapp w
              ++ [mkEnvoi (telephone m) (apikey_callmebot m)
                    (message_rappel env (session w) m e) ok])%list)
        /\ notifications (db w')
           = (notifications (session w)
              ++ [notification_envoyee env (session w) m e])%list
        /\ notif_statut (notification_envoyee env (session w) m e) = "envoyée"
        /\ session w' = db w').
Proof.
  intros He w'. subst w'. split.
  - intros Hc.
    rewrite (notifier_membre_engagement_incomplet env id e w He Hc).
    simpl. auto.
  - intros m Hm Hc.
    rewrite (notifier_membre_engagement_complet env id e m w He Hm Hc).
    simpl. repeat split. eexists. reflexivity.
Qed.

(** C3 fails on the code: Alice has no messaging key; the manual reminder
    of her commitment calls no gateway and leaves the notifications empty:
    no record of outcome SKIPPED_NO_CREDENTIAL (nor any other) exists
    afterwards. *)
Lemma rappel_sans_cle_sans_trace :
  (exists e, query_get engagement_id (engagements Demo.store0) (Some 3) = Some e
     /\ coordonnees_completes (engagement_membre Demo.store0 e) = false)
  /\ whatsapp (snd Scenario.rappel_sans_cle) = []
  /\ notifications (db (snd Scenario.rappel_sans_cle)) = []
  /\ ~ (exists n, In n (notifications (db (snd Scenario.rappel_sans_cle)))
          /\ notif_statut n = SKIPPED_NO_CREDENTIAL).
Proof.
  split; [eexists; split; reflexivity |].
  split; [reflexivity |]. split; [reflexivity |].
  intros [n [Hn _]]. exact Hn.
Qed.

(** The theorem at Kavira's commitment, with a gateway that fails. *)
Lemma notifier_membre_engagement_trace_world0 :
  let e := mkEngagement 1 1 (Demo.float_of_Z 100) (mkDate 2025 4 1)
             "Construction" EN_COURS in
  let w := Demo.world0 in
  let w' := snd (run (notifier_membre_engagement Demo.env_ko 1) w) in
  (coordonnees_completes (engagement_membre (session w) e) = false ->
     whatsapp w' = whatsapp w /\ db w' = db w /\ session w' = session w)
  /\ (forall m,
        engagement_membre (session w) e = Some m ->
        coordonnees_completes (Some m) = true ->
        (exists ok,
           whatsapp w'
           = (whatsapp w
              ++ [mkEnvoi (telephone m) (apikey_callmebot m)
                    (message_rappel Demo.env_ko (session w) m e) ok])%list)
        /\ notifications (db w')
           = (notifications (session w)
              ++ [notification_envoyee Demo.env_ko (session w) m e])%list
        /\ notif_statut (notification_envoyee Demo.env_ko (session w) m e)
           = "envoyée"
        /\ session w' = db w').
Proof.
  exact (notifier_membre_engagement_trace Demo.env_ko 1
           (mkEngagement 1 1 (Demo.float_of_Z 100) (mkDate 2025 4 1)
              "Construction" EN_COURS)
           Demo.world0 eq_refl).
Defined.

(** What the failed gateway call of that reminder leaves behind. *)
Example rappel_kavira_echec :
  map notif_statut
    (notifications (db (snd (run (notifier_membre_engagement Demo.env_ko 1)
                               Demo.world0))))
  = ["envoyée"]
  /\ map envoi_ok
       (whatsapp (snd (run (notifier_membre_engagement Demo.env_ko 1)
                         Demo.world0)))
     = [false].
Proof. split; reflexivity. Qed.

(* ================================================================== *)
(** * The bulk reminder *)
(* ================================================================== *)

Lemma joignables_length (s : Store) (es : list Engagement) :
  (List.length (joignables s es) <= List.length es)%nat.
Proof.
  unfold joignables. induction es as [| e es IH]; simpl; [lia |].
  destruct (coordonnees_completes (engagement_membre s e)); simpl; lia.
Qed.

Lemma world_eta (w : World) :
  mkWorld (db w) (session w) (whatsapp w) (flashes w) = w.
Proof. destruct w; reflexivity. Qed.

(** The loop sends one message per reachable commitment, counts it, and
    writes nothing to the session nor to the database. *)
Lemma notifier_boucle_spec (env : Env) (s : Store) (es : list Engagement) :
  cartes_presentes s es ->
  forall cpt w, session w = s ->
    exists calls,
      notifier_boucle env es cpt w
      = (Normal (cpt + List.length (joignables s es))%nat,
         mkWorld (db w) (session w) (whatsapp w ++ calls) (flashes w))
      /\ List.length calls = List.length (joignables s es).
Proof.
  induction es as [| e es IH]; intros Hc cpt w Hs.
  - exists []. simpl. unfold ret. rewrite app_nil_r, Nat.add_0_r, world_eta.
    split; reflexivity.
  - assert (Hc' : cartes_presentes s es)
      by (intros e' m' Hin; apply Hc; right; exact Hin).
    simpl. view_unfold. rewrite Hs.
    destruct (engagement_membre s e) as [m |] eqn:Hm.
    + destruct (coordonnees_completes (Some m)) eqn:Hcc.
      * destruct (membre_cartebapteme s m) as [c |] eqn:Hcarte;
          [| exfalso; exact (Hc e m (or_introl eq_refl) Hm Hcc Hcarte)].
        match goal with
        | |- context [notifier_boucle env es (S cpt) ?w1] =>
            destruct (IH Hc' (S cpt) w1 Hs) as [calls [Hrun Hlen]];
            rewrite Hrun
        end.
        simpl. rewrite Hs.
        eexists (_ :: calls). rewrite <- app_assoc. simpl.
        rewrite Hlen, Nat.add_succ_r. split; reflexivity.
      * destruct (IH Hc' cpt w Hs) as [calls [Hrun Hlen]].
        exists calls. rewrite Hrun, Hs. split; [reflexivity | exact Hlen].
    + destruct (IH Hc' cpt w Hs) as [calls [Hrun Hlen]].
      exists calls. rewrite Hrun, Hs. split; [reflexivity | exact Hlen].
Qed.

(** C2, as the code has it: when every member that has a key and a
    telephone also has a baptism card, over the N commitments whose status
    is not "payé", the bulk reminder calls the gateway once for each
    commitment whose member has a key and a telephone, whatever the
    gateway answers; it appends no NotificationRecord (database and
    session are left as they were) and reports the number of messages
    sent, which is at most N. *)
Theorem notifier_tous_membres_compte (env : Env) (w : World) :
  cartes_presentes (session w) (engagements_non_payes (session w)) ->
  let n := List.length
             (joignables (session w) (engagements_non_payes (session w))) in
  let w' := snd (run (notifier_tous_membres env) w) in
  fst (run (notifier_tous_membres env) w) = Redirect "liste_engagements"
  /\ db w' = db w
  /\ session w' = session w
  /\ (exists calls, whatsapp w' = (whatsapp w ++ calls)%list
                    /\ List.length calls = n)
  /\ flashes w'
     = (flashes w
        ++ [(Msg (str_nat n ++ " notification(s) envoyée(s)."), "info")])%list
  /\ (n <= List.length (engagements_non_payes (session w)))%nat.
Proof.
  intros Hc n w'. subst n w'.
  destruct (notifier_boucle_spec env (session w) _ Hc 0%nat w eq_refl)
    as [calls [Hrun Hlen]].
  unfold notifier_tous_membres. view_unfold. rewrite Hrun. simpl.
  repeat split; try reflexivity.
  - exists calls. split; [reflexivity | exact Hlen].
  - apply joignables_length.
Qed.

(** C2 fails on the code: with two unsettled commitments in the database
    (Kavira's and Alice's), the bulk reminder sends one message, reports
    one, and appends no NotificationRecord, where the claim has two. *)
Lemma rappel_tous_sans_enregistrement :
  List.length (engagements_non_payes (session Scenario.world_deux)) = 2%nat
  /\ notifications (db (snd Scenario.rappel_tous)) = []
  /\ List.length (whatsapp (snd Scenario.rappel_tous)) = 1%nat
  /\ flashes (snd Scenario.rappel_tous)
     = [(Msg "1 notification(s) envoyée(s).", "info")]
  /\ List.length (notifications (db (snd Scenario.rappel_tous)))
     <> List.length (engagements_non_payes (session Scenario.world_deux)).
Proof.
  repeat split; try reflexivity. vm_compute. discriminate.
Qed.

(** The theorem at [world_deux], with a gateway that fails. *)
Lemma notifier_tous_membres_compte_world_deux :
  let w := Scenario.world_deux in
  let n := List.length
             (joignables (session w) (engagements_non_payes (session w))) in
  let w' := snd (run (notifier_tous_membres Demo.env_ko) w) in
  fst (run (notifier_tous_membres Demo.env_ko) w) = Redirect "liste_engagements"
  /\ db w' = db w
  /\ session w' = session w
  /\ (exists calls, whatsapp w' = (whatsapp w ++ calls)%list
                    /\ List.length calls = n)
  /\ flashes w'
     = (flashes w
        ++ [(Msg (str_nat n ++ " notification(s) envoyée(s)."), "info")])%list
  /\ (n <= List.length (engagements_non_payes (session w)))%nat.
Proof.
  apply (notifier_tous_membres_compte Demo.env_ko Scenario.world_deux).
  intros e m Hin Hm Hc. simpl in Hin.
  destruct Hin as [<- | [<- | []]]; vm_compute in Hm; injection Hm as <-;
    vm_compute in Hc; try discriminate Hc.
  vm_compute. discriminate.
Defined.

(** Paul has a key and no baptism card: in [world0] the loop stops at his
    commitment with an exception, after one message. *)
Example rappel_tous_interrompu :
  fst (run (notifier_tous_membres Demo.env_ok) Demo.world0)
  = InternalServerError AttributeError
  /\ List.length (whatsapp (snd (run (notifier_tous_membres Demo.env_ok)
                                   Demo.world0))) = 1%nat.
Proof. split; reflexivity. Qed.

(* ================================================================== *)
(** * Creating a commitment *)
(* ================================================================== *)

Lemma ajouter_engagement_refuse (env : Env) (f : EngagementForm) (w : World) :
  query_get membre_id (membres (session w)) (ef_membre_id f) = None
  \/ montant_refuse env (ef_montant f)
  \/ date_refusee env (ef_date_limite f) ->
  exists msg cat,
    run (ajouter_engagement env POST f) w
    = (Redirect "ajouter_engagement",
       mkWorld (db w) (session w) (whatsapp w)
               (flashes w ++ [(Msg msg, cat)])).
Proof.
  intros H. unfold ajouter_engagement, ajouter_engagement_post. view_unfold.
  repeat (case_step; simpl); use_cases;
    try (do 2 eexists; reflexivity);
    try (destruct H as [H | [H | H]]; congruence).
Qed.

Lemma ajouter_engagement_accepte (env : Env) (f : EngagementForm) (w : World)
  (m : Membre) (v : float) (d : date) :
  query_get membre_id (membres (session w)) (ef_membre_id f) = Some m ->
  montant_accepte env (ef_montant f) v ->
  date_acceptee env (ef_date_limite f) d ->
  db (snd (run (ajouter_engagement env POST f) w))
  = add_engagement (nouvel_engagement env (session w) m v d f) (session w)
  /\ session (snd (run (ajouter_engagement env POST f) w))
     = add_engagement (nouvel_engagement env (session w) m v d f) (session w).
Proof.
  intros Hm Hv Hd.
  unfold ajouter_engagement, ajouter_engagement_post, nouvel_engagement.
  view_unfold. use_cases.
  repeat (case_step; simpl); split; reflexivity.
Qed.

Lemma souscrire_engagement_refuse (env : Env) (username : string)
  (f : EngagementForm) (w : World) :
  membre_par_telephone (session w) username = None
  \/ montant_refuse env (ef_montant f)
  \/ date_refusee env (ef_date_limite f) ->
  exists endpoint msg cat,
    run (souscrire_engagement_membre env username POST f) w
    = (Redirect endpoint,
       mkWorld (db w) (session w) (whatsapp w)
               (flashes w ++ [(Msg msg, cat)])).
Proof.
  intros H. unfold souscrire_engagement_membre. view_unfold.
  repeat (case_step; simpl); use_cases;
    try (do 3 eexists; reflexivity);
    try (destruct H as [H | [H | H]]; congruence).
Qed.

Lemma souscrire_engagement_accepte (env : Env) (username : string)
  (f : EngagementForm) (w : World) (m : Membre) (v : float) (d : date) :
  membre_par_telephone (session w) username = Some m ->
  montant_accepte env (ef_montant f) v ->
  date_acceptee env (ef_date_limite f) d ->
  fst (run (souscrire_engagement_membre env username POST f) w)
  = Redirect "mes_engagements"
  /\ db (snd (run (souscrire_engagement_membre env username POST f) w))
     = add_engagement (nouvel_engagement env (session w) m v d f) (session w)
  /\ session (snd (run (souscrire_engagement_membre env username POST f) w))
     = add_engagement (nouvel_engagement env (session w) m v d f) (session w).
Proof.
  intros Hm Hv Hd.
  unfold souscrire_engagement_membre, nouvel_engagement.
  view_unfold. use_cases.
  repeat (case_step; simpl); repeat split; reflexivity.
Qed.

(** C6: creating a commitment, from the administrator's form
    ([ajouter_engagement]) or from the member's own
    ([souscrire_engagement_membre]), is refused with a flashed message and
    a redirection, and changes neither the database nor the session, when
    the member does not exist, when the amount is absent, does not parse
    or is [<= 0], or when the due date is absent or does not parse.
    Otherwise one commitment is appended and committed, with the submitted
    amount and date, for that member, and with the status OPEN. *)
Theorem creation_engagement_validee (env : Env) (username : string)
  (f : EngagementForm) (w : World) :
  (query_get membre_id (membres (session w)) (ef_membre_id f) = None
   \/ montant_refuse env (ef_montant f)
   \/ date_refusee env (ef_date_limite f) ->
   exists msg cat,
     run (ajouter_engagement env POST f) w
     = (Redirect "ajouter_engagement",
        mkWorld (db w) (session w) (whatsapp w)
                (flashes w ++ [(Msg msg, cat)])))
  /\ (membre_par_telephone (session w) username = None
      \/ montant_refuse env (ef_montant f)
      \/ date_refusee env (ef_date_limite f) ->
      exists endpoint msg cat,
        run (souscrire_engagement_membre env username POST f) w
        = (Redirect endpoint,
           mkWorld (db w) (session w) (whatsapp w)
                   (flashes w ++ [(Msg msg, cat)])))
  /\ (forall m v d,
        montant_accepte env (ef_montant f) v ->
        date_acceptee env (ef_date_limite f) d ->
        statut (nouvel_engagement env (session w) m v d f) = EN_COURS
        /\ montant_total (nouvel_engagement env (session w) m v d f) = v
        /\ date_limite (nouvel_engagement env (session w) m v d f) = d
        /\ eng_membre_id (nouvel_engagement env (session w) m v d f)
           = membre_id m
        /\ (query_get membre_id (membres (session w)) (ef_membre_id f) = Some m ->
            db (snd (run (ajouter_engagement env POST f) w))
            = add_engagement (nouvel_engagement env (session w) m v d f)
                (session w))
        /\ (membre_par_telephone (session w) username = Some m ->
            db (snd (run (souscrire_engagement_membre env username POST f) w))
            = add_engagement (nouvel_engagement env (session w) m v d f)
                (session w))).
Proof.
  split; [apply ajouter_engagement_refuse |].
  split; [apply souscrire_engagement_refuse |].
  intros m v d Hv Hd. repeat split.
  - intros Hm. apply (ajouter_engagement_accepte env f w m v d Hm Hv Hd).
  - intros Hm.
    apply (souscrire_engagement_accepte env username f w m v d Hm Hv Hd).
Qed.

(** The theorem on [world0]: an amount of -5 is refused by both forms, and
    a commitment of 75 due on 30/06/2025 is recorded for Kavira. *)
Lemma creation_engagement_validee_world0 :
  (exists msg cat,
     run (ajouter_engagement Demo.env_ok POST
            (mkEngagementForm (Some 1) (Some "-5") (Some "2025-06-30") None))
         Demo.world0
     = (Redirect "ajouter_engagement",
        mkWorld Demo.store0 Demo.store0 [] [(Msg msg, cat)]))
  /\ engagements
       (db (snd (run (ajouter_engagement Demo.env_ok POST
                        (mkEngagementForm (Some 1) (Some "75")
                           (Some "2025-06-30") (Some " Toiture ")))
                     Demo.world0)))
     = (engagements Demo.store0
        ++ [mkEngagement 4 1 (Demo.float_of_Z 75) (mkDate 2025 6 30) "Toiture"
              EN_COURS])%list.
Proof.
  split.
  - apply (proj1 (creation_engagement_validee Demo.env_ok ""
                    (mkEngagementForm (Some 1) (Some "-5") (Some "2025-06-30")
                       None) Demo.world0)).
    right; left. vm_compute. reflexivity.
  - pose proof (proj2 (proj2 (creation_engagement_validee Demo.env_ok ""
                    (mkEngagementForm (Some 1) (Some "75") (Some "2025-06-30")
                       (Some " Toiture ")) Demo.world0))) as H.
    specialize (H (mkMembre 1 "CBCA-VUL-0001" (Some 1) (Some "+243970000001")
                     (Some "APIKEY0001"))
                  (Demo.float_of_Z 75) (mkDate 2025 6 30)).
    destruct H as (_ & _ & _ & _ & H & _).
    + exists "75". repeat split; vm_compute; reflexivity.
    + exists "2025-06-30". split; vm_compute; reflexivity.
    + rewrite (H eq_refl). vm_compute. reflexivity.
Defined.

(* ================================================================== *)
(** * Recording a payment *)
(* ================================================================== *)

Lemma date_retenue_refusee (env : Env) (x : option string) :
  date_refusee env x -> date_retenue env x = dt_date (utcnow env).
Proof.
  unfold date_refusee, date_retenue. destruct x as [s |]; [| reflexivity].
  intros ->. reflexivity.
Qed.

Lemma date_retenue_acceptee (env : Env) (x : option string) (d : date) :
  date_acceptee env x d -> date_retenue env x = d.
Proof.
  unfold date_retenue. intros [s [-> Hs]]. rewrite Hs. reflexivity.
Qed.

Lemma ajouter_paiement_refuse (env : Env) (f : PaiementForm) (w : World) :
  query_get engagement_id (engagements (session w)) (pf_engagement_id f) = None
  \/ montant_refuse env (pf_montant f) ->
  exists msg cat,
    run (ajouter_paiement env POST f) w
    = (Redirect "ajouter_paiement",
       mkWorld (db w) (session w) (whatsapp w)
               (flashes w ++ [(Msg msg, cat)])).
Proof.
  intros H. unfold ajouter_paiement, ajouter_paiement_post. view_unfold.
  repeat (case_step; simpl); use_cases;
    try (do 2 eexists; reflexivity);
    try (destruct H as [H | H]; congruence).
Qed.

Lemma ajouter_paiement_accepte (env : Env) (f : PaiementForm) (w : World)
  (e : Engagement) (v : float) :
  query_get engagement_id (engagements (session w)) (pf_engagement_id f)
  = Some e ->
  montant_accepte env (pf_montant f) v ->
  db (snd (run (ajouter_paiement env POST f) w))
  = add_paiement (nouveau_paiement env (session w) e v f) (session w)
  /\ session (snd (run (ajouter_paiement env POST f) w))
     = add_paiement (nouveau_paiement env (session w) e v f) (session w).
Proof.
  intros He Hv.
  unfold ajouter_paiement, ajouter_paiement_post, nouveau_paiement,
    date_retenue.
  view_unfold. use_cases.
  repeat (case_step; simpl); split; reflexivity.
Qed.

(** C7: recording a payment is refused with a flashed message and a
    redirection, and changes neither the database nor the session, when
    the commitment does not exist or when the amount is absent, does not
    parse or is [<= 0]. With a valid amount for an existing commitment, one
    payment of that amount is appended and committed; its date is the
    submitted one when it parses and the current date when it is absent or
    does not parse. *)
Theorem enregistrement_paiement_valide (env : Env) (f : PaiementForm)
  (w : World) :
  (query_get engagement_id (engagements (session w)) (pf_engagement_id f) = None
   \/ montant_refuse env (pf_montant f) ->
   exists msg cat,
     run (ajouter_paiement env POST f) w
     = (Redirect "ajouter_paiement",
        mkWorld (db w) (session w) (whatsapp w)
                (flashes w ++ [(Msg msg, cat)])))
  /\ (forall e v,
        query_get engagement_id (engagements (session w)) (pf_engagement_id f)
        = Some e ->
        montant_accepte env (pf_montant f) v ->
        paiements (db (snd (run (ajouter_paiement env POST f) w)))
        = (paiements (session w)
           ++ [nouveau_paiement env (session w) e v f])%list
        /\ montant (nouveau_paiement env (session w) e v f) = v
        /\ pai_engagement_id (nouveau_paiement env (session w) e v f)
           = engagement_id e
        /\ (date_refusee env (pf_date_paiement f) ->
            date_paiement (nouveau_paiement env (session w) e v f)
            = dt_date (utcnow env))
        /\ (forall d, date_acceptee env (pf_date_paiement f) d ->
            date_paiement (nouveau_paiement env (session w) e v f) = d)).
Proof.
  split; [apply ajouter_paiement_refuse |].
  intros e v He Hv.
  destruct (ajouter_paiement_accepte env f w e v He Hv) as [Hdb _].
  rewrite Hdb. repeat split.
  - apply date_retenue_refusee.
  - apply date_retenue_acceptee.
Qed.

(** The theorem on [world0]: a payment of 0 is refused; a payment of 25
    with the date "hier" is recorded at the current date. *)
Lemma enregistrement_paiement_valide_world0 :
  (exists msg cat,
     run (ajouter_paiement Demo.env_ok POST
            (mkPaiementForm (Some 1) (Some "0") (Some "2025-03-09")))
         Demo.world0
     = (Redirect "ajouter_paiement",
        mkWorld Demo.store0 Demo.store0 [] [(Msg msg, cat)]))
  /\ paiements
       (db (snd (run (ajouter_paiement Demo.env_ok POST
                        (mkPaiementForm (Some 1) (Some "25") (Some "hier")))
                     Demo.world0)))
     = [mkPaiement 1 1 (Demo.float_of_Z 25) (mkDate 2025 3 10)].
Proof.
  split.
  - apply (proj1 (enregistrement_paiement_valide Demo.env_ok
                    (mkPaiementForm (Some 1) (Some "0") (Some "2025-03-09"))
                    Demo.world0)).
    right. vm_compute. reflexivity.
  - pose proof (proj2 (enregistrement_paiement_valide Demo.env_ok
                    (mkPaiementForm (Some 1) (Some "25") (Some "hier"))
                    Demo.world0)) as H.
    specialize (H (mkEngagement 1 1 (Demo.float_of_Z 100) (mkDate 2025 4 1)
                     "Construction" EN_COURS)
                  (Demo.float_of_Z 25) eq_refl).
    destruct H as [H _].
    + exists "25". repeat split; vm_compute; reflexivity.
    + rewrite H. vm_compute. reflexivity.
Defined.

Lemma engagement_membre_add_paiement (p : Paiement) (s : Store)
  (e : Engagement) :
  engagement_membre (add_paiement p s) e = engagement_membre s e.
Proof. reflexivity. Qed.

Lemma membre_cartebapteme_add_paiement (p : Paiement) (s : Store)
  (m : Membre) :
  membre_cartebapteme (add_paiement p s) m = membre_cartebapteme s m.
Proof. reflexivity. Qed.

(** C9: in [ajouter_paiement] the payment is committed before the WhatsApp
    message and the receipt are built. When the amount is valid and the
    member of the commitment has no baptism card, reading the card's name
    raises after the commit: the form is rendered again without receipt,
    an error is flashed, no message is sent, and the payment stays in the
    database, the rollback of the handler undoing nothing. *)
Theorem paiement_persiste_malgre_erreur (env : Env) (f : PaiementForm)
  (w : World) (e : Engagement) (v : float) (m : Membre) :
  query_get engagement_id (engagements (session w)) (pf_engagement_id f)
  = Some e ->
  montant_accepte env (pf_montant f) v ->
  engagement_membre (session w) e = Some m ->
  membre_cartebapteme (session w) m = None ->
  run (ajouter_paiement env POST f) w
  = (Render "paiements/ajouter.html" None,
     mkWorld
       (add_paiement (nouveau_paiement env (session w) e v f) (session w))
       (add_paiement (nouveau_paiement env (session w) e v f) (session w))
       (whatsapp w)
       (flashes w ++ [(MsgExn "Erreur: " AttributeError, "danger")])).
Proof.
  intros He Hv Hm Hc.
  unfold ajouter_paiement, ajouter_paiement_post, nouveau_paiement,
    date_retenue.
  view_unfold. use_cases.
  destruct (pf_date_paiement f) as [ds |];
    [destruct (strptime_ymd env ds) |]; simpl;
    rewrite !engagement_membre_add_paiement, Hm;
    rewrite !membre_cartebapteme_add_paiement, Hc;
    destruct (truthy (apikey_callmebot m)); reflexivity.
Qed.

(** The theorem at Paul's commitment: he has a key and no card. *)
Lemma paiement_persiste_malgre_erreur_paul :
  run (ajouter_paiement Demo.env_ok POST
         (mkPaiementForm (Some 2) (Some "10") None)) Demo.world0
  = (Render "paiements/ajouter.html" None,
     mkWorld
       (add_paiement (mkPaiement 1 2 (Demo.float_of_Z 10) (mkDate 2025 3 10))
          Demo.store0)
       (add_paiement (mkPaiement 1 2 (Demo.float_of_Z 10) (mkDate 2025 3 10))
          Demo.store0)
       [] [(MsgExn "Erreur: " AttributeError, "danger")]).
Proof.
  refine (eq_trans
            (paiement_persiste_malgre_erreur Demo.env_ok
               (mkPaiementForm (Some 2) (Some "10") None) Demo.world0
               (mkEngagement 2 2 (Demo.float_of_Z 50) (mkDate 2025 4 15)
                  "Chorale" EN_COURS)
               (Demo.float_of_Z 10)
               (mkMembre 2 "CBCA-VUL-0002" None (Some "+243970000002")
                  (Some "APIKEY0002"))
               eq_refl _ eq_refl eq_refl) _).
  - exists "10". repeat split; vm_compute; reflexivity.
  - vm_compute. reflexivity.
Defined.

(* ================================================================== *)
(** * Editing a payment *)
(* ================================================================== *)

Lemma modifier_paiement_refuse (env : Env) (id : Z) (f : ModifierPaiementForm)
  (p : Paiement) (w : World) :
  query_get paiement_id (paiements (session w)) (Some id) = Some p ->
  montant_refuse env (mp_montant f) \/ date_refusee env (mp_date_paiement f) ->
  exists msg cat,
    run (modifier_paiement env id f) w
    = (Redirect "liste_paiements",
       mkWorld (db w) (session w) (whatsapp w) (flashes w ++ [(msg, cat)]))
    \/ run (modifier_paiement env id f) w
       = (Redirect "liste_paiements",
          mkWorld (db w) (db w) (whatsapp w) (flashes w ++ [(msg, cat)])).
Proof.
  intros Hp H. unfold modifier_paiement. view_unfold. rewrite Hp.
  repeat (case_step; simpl); use_cases;
    try (do 2 eexists; left; reflexivity);
    try (do 2 eexists; right; reflexivity);
    try (destruct H as [H | H]; congruence).
Qed.

Lemma modifier_paiement_accepte (env : Env) (id : Z)
  (f : ModifierPaiementForm) (p : Paiement) (w : World) (v : float)
  (d : date) :
  query_get paiement_id (paiements (session w)) (Some id) = Some p ->
  montant_accepte env (mp_montant f) v ->
  date_acceptee env (mp_date_paiement f) d ->
  run (modifier_paiement env id f) w
  = (Redirect "liste_paiements",
     mkWorld
       (update_paiement id (set_montant v)
          (update_paiement id (set_date_paiement d) (session w)))
       (update_paiement id (set_montant v)
          (update_paiement id (set_date_paiement d) (session w)))
       (whatsapp w)
       (flashes w ++ [(Msg "Paiement modifié avec succès", "success")])).
Proof.
  intros Hp Hv Hd. unfold modifier_paiement. view_unfold. rewrite Hp.
  use_cases. reflexivity.
Qed.

(** C10: editing a payment is atomic on error. When the new amount is
    absent, does not parse or is [<= 0], or when the new date is absent or
    does not parse, the view redirects with a flashed message and commits
    nothing: the database is what it was, and the session holds no pending
    change, so that the stored payment keeps both its amount and its date.
    ([w] starts a request: its session holds nothing pending.) *)
Theorem modification_paiement_atomique (env : Env) (id : Z)
  (f : ModifierPaiementForm) (p : Paiement) (w : World) :
  session w = db w ->
  query_get paiement_id (paiements (db w)) (Some id) = Some p ->
  montant_refuse env (mp_montant f) \/ date_refusee env (mp_date_paiement f) ->
  fst (run (modifier_paiement env id f) w) = Redirect "liste_paiements"
  /\ db (snd (run (modifier_paiement env id f) w)) = db w
  /\ session (snd (run (modifier_paiement env id f) w)) = db w
  /\ query_get paiement_id
       (paiements (db (snd (run (modifier_paiement env id f) w)))) (Some id)
     = Some p
  /\ (exists msg cat,
        flashes (snd (run (modifier_paiement env id f) w))
        = (flashes w ++ [(msg, cat)])%list).
Proof.
  intros Hs Hp H. rewrite <- Hs in Hp.
  destruct (modifier_paiement_refuse env id f p w Hp H)
    as [msg [cat [Hrun | Hrun]]]; rewrite Hrun; simpl;
    rewrite <- ?Hs; repeat split; try exact Hp; eauto.
Qed.

(** The theorem on a database with one payment: the amount "abc" with a
    good date, then a good amount with the date "demain". *)
Lemma modification_paiement_atomique_exemple :
  let w := snd Scenario.paiement_total in
  let p := mkPaiement 1 1 (Demo.float_of_Z 100) (mkDate 2025 3 9) in
  (db (snd (run (modifier_paiement Demo.env_ok 1
                   (mkModifierPaiementForm (Some "abc") (Some "2025-03-20")))
                (mkWorld (db w) (db w) [] []))) = db w
   /\ query_get paiement_id
        (paiements
           (db (snd (run (modifier_paiement Demo.env_ok 1
                            (mkModifierPaiementForm (Some "abc")
                               (Some "2025-03-20")))
                         (mkWorld (db w) (db w) [] []))))) (Some 1)
      = Some p)
  /\ (db (snd (run (modifier_paiement Demo.env_ok 1
                      (mkModifierPaiementForm (Some "40") (Some "demain")))
                   (mkWorld (db w) (db w) [] []))) = db w).
Proof.
  intros w p. split.
  - pose proof (modification_paiement_atomique Demo.env_ok 1
                  (mkModifierPaiementForm (Some "abc") (Some "2025-03-20"))
                  p (mkWorld (db w) (db w) [] []) eq_refl eq_refl) as H.
    destruct H as (_ & Hdb & _ & Hq & _).
    + left. vm_compute. exact I.
    + split; [exact Hdb | exact Hq].
  - pose proof (modification_paiement_atomique Demo.env_ok 1
                  (mkModifierPaiementForm (Some "40") (Some "demain"))
                  p (mkWorld (db w) (db w) [] []) eq_refl eq_refl) as H.
    destruct H as (_ & Hdb & _).
    + right. vm_compute. reflexivity.
    + exact Hdb.
Defined.

(** An accepted edit changes both fields at once. *)
Example modification_paiement_acceptee :
  paiements
    (db (snd (run (modifier_paiement Demo.env_ok 1
                     (mkModifierPaiementForm (Some "40") (Some "2025-03-20")))
                  (snd Scenario.paiement_total))))
  = [mkPaiement 1 1 (Demo.float_of_Z 40) (mkDate 2025 3 20)].
Proof. reflexivity. Qed.

(* ================================================================== *)
(** * Binary64 amounts *)
(* ================================================================== *)

Lemma engagement_paiements_add (s : Store) (e : Engagement) (p : Paiement) :
  pai_engagement_id p = engagement_id e ->
  engagement_paiements (add_paiement p s) e
  = (engagement_paiements s e ++ [p])%list.
Proof.
  intros Hp. unfold engagement_paiements. simpl.
  rewrite filter_app. simpl. rewrite Hp, Z.eqb_refl. reflexivity.
Qed.

(** C8, as the code has it: amounts are Python floats, binary64 numbers.
    After a payment is added to a commitment, the paid sum is the binary64
    sum of the former paid sum and the new amount (one rounded addition),
    and the remaining amount is [max(0, total - paid)] computed and
    compared in binary64: no decimal arithmetic takes part. *)
Theorem total_paye_binaire (s : Store) (e : Engagement) (p : Paiement) :
  pai_engagement_id p = engagement_id e ->
  total_paye (add_paiement p s) e = (total_paye s e + montant p)%float
  /\ montant_restant (add_paiement p s) e
     = Py.max 0 (montant_total e - (total_paye s e + montant p))%float.
Proof.
  intros Hp.
  assert (H : total_paye (add_paiement p s) e
              = (total_paye s e + montant p)%float).
  { unfold total_paye. rewrite (engagement_paiements_add s e p Hp).
    rewrite map_app. simpl. apply sum_app_one. }
  split; [exact H |]. unfold montant_restant. rewrite H. reflexivity.
Qed.

(** C8 fails on the code: Kavira subscribes a commitment of "0.80" and
    pays "0.70" then "0.10", which make 0.80 in decimal arithmetic. The
    ledger holds the binary64 numbers nearest to these values: the paid sum
    is strictly below the total, and something remains to be paid. *)
Lemma centimes_inexacts :
  Demo.float_of_decimal "0.80" = Some 0x1.999999999999ap-1%float
  /\ Demo.float_of_decimal "0.70" = Some 0x1.6666666666666p-1%float
  /\ Demo.float_of_decimal "0.10" = Some 0x1.999999999999ap-4%float
  /\ exists e,
       query_get engagement_id (engagements (db Scenario.centimes)) (Some 4)
       = Some e
       /\ montant_total e = 0x1.999999999999ap-1%float
       /\ map montant (engagement_paiements (db Scenario.centimes) e)
          = [0x1.6666666666666p-1%float; 0x1.999999999999ap-4%float]
       /\ total_paye (db Scenario.centimes) e = 0x1.9999999999999p-1%float
       /\ (total_paye (db Scenario.centimes) e <? montant_total e)%float = true
       /\ (0 <? montant_restant (db Scenario.centimes) e)%float = true.
Proof.
  split; [reflexivity |]. split; [reflexivity |]. split; [reflexivity |].
  eexists. split; [vm_compute; reflexivity |].
  repeat split; vm_compute; reflexivity.
Qed.

(** The theorem at the second payment of that commitment. *)
Lemma total_paye_binaire_centimes :
  let e := mkEngagement 4 1 0x1.999999999999ap-1%float (mkDate 2025 6 30)
             "Offrande" EN_COURS in
  let s := mkStore [] [] [e]
             [mkPaiement 1 4 0x1.6666666666666p-1%float (mkDate 2025 3 9)] [] in
  let p := mkPaiement 2 4 0x1.999999999999ap-4%float (mkDate 2025 3 10) in
  total_paye (add_paiement p s) e = (total_paye s e + montant p)%float
  /\ montant_restant (add_paiement p s) e
     = Py.max 0 (montant_total e - (total_paye s e + montant p))%float.
Proof.
  intros e s p. apply (total_paye_binaire s e p). reflexivity.
Defined.

(** Amounts that binary64 holds exactly add up exactly: 40 and 60 make
    100. *)
Example total_paye_exact :
  let e := mkEngagement 1 1 (Demo.float_of_Z 100) (mkDate 2025 4 1) "" EN_COURS in
  let s := mkStore [] [] [e]
             [ mkPaiement 1 1 (Demo.float_of_Z 40) (mkDate 2025 3 1);
               mkPaiement 2 1 (Demo.float_of_Z 60) (mkDate 2025 3 2) ] [] in
  total_paye s e = montant_total e.
Proof. reflexivity. Qed.

(* ================================================================== *)
(** * The periodic tick and the manual reminder, run twice *)
(* ================================================================== *)

Section TickFacts.

Variable env : Env.
Variable proche : datetime -> Engagement -> bool.

(** One automatic reminder appends one record, of that commitment, dated
    [now], and commits it; it never raises. *)
Lemma notifier_automatique_spec (now : datetime) (e : Engagement) (w : World) :
  exists n w',
    notifier_automatique env now e w = (Normal tt, w')
    /\ engagements (session w') = engagements (session w)
    /\ notifications (session w') = (notifications (session w) ++ [n])%list
    /\ notif_engagement_id n = engagement_id e
    /\ date_envoi n = now.
Proof.
  unfold notifier_automatique. view_unfold.
  destruct (engagement_membre (session w) e) as [m |];
    [destruct (coordonnees_completes (Some m));
     [destruct (gateway env _ _ _ _) |] |];
    do 2 eexists; (split; [reflexivity |]); simpl; repeat split.
Qed.

Lemma tick_boucle_spec (now : datetime) (es : list Engagement) :
  forall w,
    exists news w',
      tick_boucle env now es w = (Normal tt, w')
      /\ engagements (session w') = engagements (session w)
      /\ notifications (session w') = (notifications (session w) ++ news)%list
      /\ map notif_engagement_id news = map engagement_id es
      /\ Forall (fun n => date_envoi n = now) news.
Proof.
  induction es as [| e es IH]; intros w.
  - exists [], w. simpl. rewrite app_nil_r. repeat split. constructor.
  - destruct (notifier_automatique_spec now e w)
      as (n & w1 & Hrun & He & Hn & Hid & Hdate).
    destruct (IH w1) as (news & w2 & Hrun2 & He2 & Hn2 & Hids & Hdates).
    exists (n :: news), w2. simpl. unfold bind. rewrite Hrun, Hrun2.
    repeat split.
    + rewrite He2. exact He.
    + rewrite Hn2, Hn, <- app_assoc. reflexivity.
    + rewrite Hid, Hids. reflexivity.
    + constructor; assumption.
Qed.

Lemma nb_sent_or_failed_app (i : Z) (l1 l2 : list Notification) :
  nb_sent_or_failed i (l1 ++ l2)
  = (nb_sent_or_failed i l1 + nb_sent_or_failed i l2)%nat.
Proof.
  unfold nb_sent_or_failed. rewrite filter_app, length_app. reflexivity.
Qed.

Lemma nb_sent_or_failed_absent (i : Z) (l : list Notification) :
  ~ In i (map notif_engagement_id l) -> nb_sent_or_failed i l = 0%nat.
Proof.
  unfold nb_sent_or_failed. induction l as [| n l IH]; intros Hi; simpl.
  - reflexivity.
  - destruct (Z.eqb_spec (notif_engagement_id n) i) as [Heq | Hne]; simpl.
    + exfalso. apply Hi. left. exact Heq.
    + apply IH. intros Hin. apply Hi. right. exact Hin.
Qed.

Lemma nb_sent_or_failed_nodup (i : Z) (l : list Notification) :
  NoDup (map notif_engagement_id l) -> (nb_sent_or_failed i l <= 1)%nat.
Proof.
  induction l as [| n l IH]; intros Hnd.
  - unfold nb_sent_or_failed. simpl. lia.
  - simpl in Hnd. inversion Hnd as [| x xs Hnotin Hnd' Heq]; subst.
    specialize (IH Hnd').
    change (n :: l) with ([n] ++ l)%list. rewrite nb_sent_or_failed_app.
    unfold nb_sent_or_failed at 1. simpl.
    destruct (Z.eqb_spec (notif_engagement_id n) i) as [Heq | Hne]; simpl.
    + subst i. rewrite (nb_sent_or_failed_absent _ _ Hnotin).
      destruct (sent_or_failed n); simpl; lia.
    + exact IH.
Qed.

Lemma nb_sent_or_failed_witness (i : Z) (l : list Notification) :
  nb_sent_or_failed i l <> 0%nat ->
  exists n, In n l /\ notif_engagement_id n = i /\ sent_or_failed n = true.
Proof.
  unfold nb_sent_or_failed. induction l as [| n l IH]; simpl; intros H.
  - contradiction.
  - destruct (Z.eqb_spec (notif_engagement_id n) i) as [Heq | Hne]; simpl in H.
    + destruct (sent_or_failed n) eqn:Hs; simpl in H.
      * exists n. repeat split; auto.
      * destruct (IH H) as (n' & Hin & Hn'). exists n'. split; auto.
    + destruct (IH H) as (n' & Hin & Hn'). exists n'. split; auto.
Qed.

Lemma NoDup_map_filter {A : Type} (f : A -> Z) (p : A -> bool) (l : list A) :
  NoDup (map f l) -> NoDup (map f (filter p l)).
Proof.
  induction l as [| a l IH]; simpl; intros Hnd; [constructor |].
  inversion Hnd as [| x xs Hnotin Hnd' Heq]; subst.
  destruct (p a); simpl; [constructor |]; auto.
  intros Hin. apply Hnotin. apply in_map_iff in Hin.
  destruct Hin as (b & Hb & Hin). apply in_map_iff. exists b. split; auto.
  apply filter_In in Hin. tauto.
Qed.

Lemma candidats_nodup (s : Store) (debut now : datetime) :
  NoDup (map engagement_id (engagements s)) ->
  NoDup (map engagement_id (candidats proche s debut now)).
Proof.
  intros H. unfold candidats, engagements_non_payes.
  do 2 apply NoDup_map_filter. exact H.
Qed.

(** The guard: a commitment that has a SENT or FAILED record since [debut]
    is no candidate. *)
Lemma candidats_deja_notifie (s : Store) (debut now : datetime)
  (n : Notification) :
  In n (notifications s) ->
  sent_or_failed n = true ->
  datetime_leb debut (date_envoi n) = true ->
  ~ In (notif_engagement_id n)
       (map engagement_id (candidats proche s debut now)).
Proof.
  intros Hin Hs Hd Hc. apply in_map_iff in Hc.
  destruct Hc as (e & Hid & He). unfold candidats in He.
  apply filter_In in He. destruct He as [_ He].
  apply andb_prop in He. destruct He as [_ He].
  assert (Hdeja : deja_notifie s debut e = true).
  { unfold deja_notifie. apply existsb_exists. exists n. split; [exact Hin |].
    rewrite Hid, Z.eqb_refl, Hs, Hd. reflexivity. }
  rewrite Hdeja in He. discriminate He.
Qed.

Lemma skipn_length_app {A : Type} (l r : list A) :
  skipn (List.length l) (l ++ r) = r.
Proof. induction l as [| a l IH]; simpl; auto. Qed.

(** Two ticks of the same period: the second one adds no SENT or FAILED
    record to a commitment that the first one notified. *)
Lemma deux_ticks (debut now1 now2 : datetime) (w : World) :
  NoDup (map engagement_id (engagements (session w))) ->
  datetime_leb debut now1 = true ->
  exists w1 w2,
    notifier_engagements_proches env proche debut now1 w = (Normal tt, w1)
    /\ notifier_engagements_proches env proche debut now2 w1 = (Normal tt, w2)
    /\ forall i, (nb_sent_or_failed i (nouvelles w w2) <= 1)%nat.
Proof.
  intros Hnd Hle. unfold notifier_engagements_proches. view_unfold.
  destruct (tick_boucle_spec now1 (candidats proche (session w) debut now1) w)
    as (news1 & w1 & Hrun1 & He1 & Hn1 & Hids1 & Hd1).
  destruct (tick_boucle_spec now2 (candidats proche (session w1) debut now2) w1)
    as (news2 & w2 & Hrun2 & He2 & Hn2 & Hids2 & Hd2).
  exists w1, w2. rewrite Hrun1, Hrun2. repeat split.
  intros i. unfold nouvelles.
  rewrite Hn2, Hn1, <- app_assoc, skipn_length_app, nb_sent_or_failed_app.
  assert (Hnd1 : NoDup (map notif_engagement_id news1))
    by (rewrite Hids1; apply candidats_nodup; exact Hnd).
  assert (Hnd2 : NoDup (map notif_engagement_id news2))
    by (rewrite Hids2; apply candidats_nodup; rewrite He1; exact Hnd).
  pose proof (nb_sent_or_failed_nodup i news1 Hnd1) as H1.
  pose proof (nb_sent_or_failed_nodup i news2 Hnd2) as H2.
  destruct (Nat.eq_dec (nb_sent_or_failed i news1) 0) as [Hz | Hnz]; [lia |].
  destruct (nb_sent_or_failed_witness i news1 Hnz) as (n & Hin & Hid & Hs).
  assert (Habs : ~ In i (map notif_engagement_id news2)).
  { rewrite Hids2, <- Hid.
    apply candidats_deja_notifie; [| exact Hs |].
    - rewrite Hn1. apply in_or_app. right. exact Hin.
    - rewrite Forall_forall in Hd1. rewrite (Hd1 n Hin). exact Hle. }
  rewrite (nb_sent_or_failed_absent i news2 Habs). lia.
Qed.

End TickFacts.

Lemma notifier_membre_engagement_deux_fois (env : Env) (id : Z)
  (e : Engagement) (m : Membre) (w : World) :
  query_get engagement_id (engagements (session w)) (Some id) = Some e ->
  engagement_membre (session w) e = Some m ->
  coordonnees_completes (Some m) = true ->
  List.length
    (notifications
       (db (snd (run (notifier_membre_engagement env id)
                   (snd (run (notifier_membre_engagement env id) w))))))
  = (List.length (notifications (session w)) + 2)%nat.
Proof.
  intros He Hm Hc.
  rewrite (notifier_membre_engagement_complet env id e m w He Hm Hc).
  cbn [snd].
  match goal with
  | |- context [run (notifier_membre_engagement env id) ?w1] =>
      rewrite (notifier_membre_engagement_complet env id e m w1 He Hm Hc)
  end.
  simpl. rewrite !length_app. simpl. lia.
Qed.

Lemma notifier_membre_engagement_deux_fois_incomplet (env : Env) (id : Z)
  (e : Engagement) (w : World) :
  query_get engagement_id (engagements (session w)) (Some id) = Some e ->
  coordonnees_completes (engagement_membre (session w) e) = false ->
  notifications
    (session (snd (run (notifier_membre_engagement env id)
                     (snd (run (notifier_membre_engagement env id) w)))))
  = notifications (session w)
  /\ db (snd (run (notifier_membre_engagement env id)
                (snd (run (notifier_membre_engagement env id) w))))
     = db w.
Proof.
  intros He Hc.
  rewrite (notifier_membre_engagement_incomplet env id e w He Hc).
  cbn [snd].
  match goal with
  | |- context [run (notifier_membre_engagement env id) ?w1] =>
      rewrite (notifier_membre_engagement_incomplet env id e w1 He Hc)
  end.
  split; reflexivity.
Qed.

(** C5, as the code and the spec's tick have it: two runs of the periodic
    tick within one period (the same period start [debut], not after the
    first run's clock) both complete, and together they append at most one
    SENT or FAILED record per commitment, a commitment notified by the
    first run being no candidate of the second. The manual reminder of one
    commitment, run twice, appends two records when the member has a key
    and a telephone, and none otherwise. (Commitments have distinct
    identifiers.) *)
Theorem tick_idempotent_rappel_manuel (env : Env)
  (proche : datetime -> Engagement -> bool) (debut now1 now2 : datetime)
  (w : World) :
  NoDup (map engagement_id (engagements (session w))) ->
  datetime_leb debut now1 = true ->
  (exists w1 w2,
     notifier_engagements_proches env proche debut now1 w = (Normal tt, w1)
     /\ notifier_engagements_proches env proche debut now2 w1 = (Normal tt, w2)
     /\ forall i, (nb_sent_or_failed i (nouvelles w w2) <= 1)%nat)
  /\ (forall id e,
        query_get engagement_id (engagements (session w)) (Some id) = Some e ->
        (forall m,
           engagement_membre (session w) e = Some m ->
           coordonnees_completes (Some m) = true ->
           List.length
             (notifications
                (db (snd (run (notifier_membre_engagement env id)
                            (snd (run (notifier_membre_engagement env id) w))))))
           = (List.length (notifications (session w)) + 2)%nat)
        /\ (coordonnees_completes (engagement_membre (session w) e) = false ->
            notifications
              (session (snd (run (notifier_membre_engagement env id)
                               (snd (run (notifier_membre_engagement env id)
                                       w)))))
            = notifications (session w))).
Proof.
  intros Hnd Hle. split.
  - apply deux_ticks; assumption.
  - intros id e He. split.
    + intros m Hm Hc.
      apply (notifier_membre_engagement_deux_fois env id e m w He Hm Hc).
    + intros Hc.
      apply (notifier_membre_engagement_deux_fois_incomplet env id e w He Hc).
Qed.

(** C5 fails on the code: the manual reminder of Alice's commitment, run
    twice, appends no record at all, where the claim has two. *)
Lemma rappel_sans_cle_deux_fois :
  notifications (db (snd Scenario.rappel_sans_cle_bis)) = []
  /\ notifications (session (snd Scenario.rappel_sans_cle_bis)) = []
  /\ List.length (notifications (db (snd Scenario.rappel_sans_cle_bis)))
     <> (List.length (notifications (db Demo.world0)) + 2)%nat.
Proof.
  split; [reflexivity |]. split; [reflexivity |]. vm_compute. discriminate.
Qed.

(** The theorem on [world0], the day starting at midnight, with a gateway
    that fails on every odd-indexed call and every commitment near its due
    date. *)
Lemma tick_idempotent_rappel_manuel_world0 :
  (exists w1 w2,
     notifier_engagements_proches Demo.env_impair (fun _ _ => true)
       (mkDatetime (mkDate 2025 3 10) 0) Demo.maintenant Demo.world0
     = (Normal tt, w1)
     /\ notifier_engagements_proches Demo.env_impair (fun _ _ => true)
          (mkDatetime (mkDate 2025 3 10) 0)
          (mkDatetime (mkDate 2025 3 10) 39600) w1
        = (Normal tt, w2)
     /\ forall i, (nb_sent_or_failed i (nouvelles Demo.world0 w2) <= 1)%nat)
  /\ List.length
       (notifications
          (db (snd (run (notifier_membre_engagement Demo.env_impair 1)
                      (snd (run (notifier_membre_engagement Demo.env_impair 1)
                              Demo.world0))))))
     = 2%nat.
Proof.
  assert (Hnd : NoDup (map engagement_id (engagements (session Demo.world0)))).
  { simpl. repeat constructor; simpl; intuition discriminate. }
  destruct (tick_idempotent_rappel_manuel Demo.env_impair (fun _ _ => true)
              (mkDatetime (mkDate 2025 3 10) 0) Demo.maintenant
              (mkDatetime (mkDate 2025 3 10) 39600) Demo.world0 Hnd eq_refl)
    as [Hticks Hmanuel].
  split; [exact Hticks |].
  destruct (Hmanuel 1 (mkEngagement 1 1 (Demo.float_of_Z 100) (mkDate 2025 4 1)
                         "Construction" EN_COURS) eq_refl) as [H _].
  exact (H (mkMembre 1 "CBCA-VUL-0001" (Some 1) (Some "+243970000001")
              (Some "APIKEY0001")) eq_refl eq_refl).
Defined.

(** Two ticks on [world0] with that gateway: Kavira's reminder is SENT,
    Paul's FAILED, Alice's skipped; the second tick only skips Alice's
    again. *)
Example deux_ticks_world0 :
  let debut := mkDatetime (mkDate 2025 3 10) 0 in
  let w1 := snd (notifier_engagements_proches Demo.env_impair (fun _ _ => true)
                   debut Demo.maintenant Demo.world0) in
  let w2 := snd (notifier_engagements_proches Demo.env_impair (fun _ _ => true)
                   debut (mkDatetime (mkDate 2025 3 10) 39600) w1) in
  map (fun n => (notif_engagement_id n, notif_statut n))
      (notifications (db w2))
  = [(1, SENT); (2, FAILED); (3, SKIPPED_NO_CREDENTIAL);
     (3, SKIPPED_NO_CREDENTIAL)].
Proof. reflexivity. Qed.

(* ================================================================== *)
(** * Uploaded file names *)
(* ================================================================== *)

Lemma rsplit1_none (sep : ascii) (s : string) :
  rsplit1 sep s = None <-> contains sep s = false.
Proof.
  induction s as [| c rest IH]; simpl; [tauto |].
  destruct (rsplit1 sep rest) as [[h t] |].
  - split; [discriminate |]. intros H. apply orb_false_elim in H.
    destruct H as [_ H]. apply IH in H. discriminate H.
  - destruct (Ascii.eqb c sep); simpl.
    + split; discriminate.
    + split; intros _; [apply IH |]; reflexivity.
Qed.

Lemma rsplit1_some (sep : ascii) (s h t : string) :
  rsplit1 sep s = Some (h, t)
  <-> s = h ++ String sep t /\ contains sep t = false.
Proof.
  split.
  - revert h t. induction s as [| c rest IH]; simpl; intros h t H;
      [discriminate H |].
    destruct (rsplit1 sep rest) as [[h' t'] |] eqn:Hr.
    + injection H as <- <-. destruct (IH h' t' eq_refl) as [-> Ht].
      split; [reflexivity | exact Ht].
    + destruct (Ascii.eqb_spec c sep) as [-> |]; [| discriminate H].
      injection H as <- <-. split; [reflexivity |].
      apply rsplit1_none. exact Hr.
  - intros [-> Ht]. induction h as [| c h IH]; simpl.
    + apply rsplit1_none in Ht. rewrite Ht, Ascii.eqb_refl. reflexivity.
    + rewrite IH. reflexivity.
Qed.

Lemma contains_app_sep (sep : ascii) (h t : string) :
  contains sep (h ++ String sep t) = true.
Proof.
  induction h as [| c h IH]; simpl.
  - rewrite Ascii.eqb_refl. reflexivity.
  - rewrite IH. apply orb_true_r.
Qed.

(** X1: [allowed_file] accepts exactly the names that end with a dot
    followed by one of png, jpg, jpeg, gif in any mix of upper and lower
    case: only what follows the last dot counts, and a name without dot is
    refused. *)
Theorem allowed_file_spec (filename : string) :
  allowed_file filename = true
  <-> exists base ext,
        filename = base ++ "." ++ ext
        /\ contains "."%char ext = false
        /\ In (lower ext) ALLOWED_EXTENSIONS.
Proof.
  unfold allowed_file. split.
  - intros H. apply andb_prop in H. destruct H as [_ H].
    destruct (rsplit1 "."%char filename) as [[h t] |] eqn:Hr;
      [| discriminate H].
    apply rsplit1_some in Hr. destruct Hr as [-> Ht].
    apply existsb_exists in H. destruct H as (x & Hx & Heq).
    apply String.eqb_eq in Heq. exists h, t. rewrite Heq. auto.
  - intros (base & ext & -> & Hdot & Hin).
    change ("." ++ ext) with (String "."%char ext).
    rewrite contains_app_sep, andb_true_l.
    rewrite (proj2 (rsplit1_some "."%char _ base ext) (conj eq_refl Hdot)).
    apply existsb_exists. exists (lower ext). split; [exact Hin |].
    apply String.eqb_refl.
Qed.

Example allowed_file_exemples :
  allowed_file "photo.PNG" = true
  /\ allowed_file "carte.bapteme.Jpeg" = true
  /\ allowed_file ".gif" = true
  /\ allowed_file "photo.png.exe" = false
  /\ allowed_file "png" = false
  /\ allowed_file "photo." = false
  /\ allowed_file "" = false.
Proof. repeat split. Qed.

(* ================================================================== *)
(** * Telephone numbers *)
(* ================================================================== *)

Lemma chiffres_puis_fin_spec (s : string) (n : nat) :
  chiffres_puis_fin s n = true
  <-> exists ds fin,
        s = ds ++ fin
        /\ tous_chiffres ds = true
        /\ (fin = "" \/ fin = nl)
        /\ (9 <= n + String.length ds <= 15)%nat.
Proof.
  split.
  - revert n. induction s as [| c rest IH]; cbn [chiffres_puis_fin];
      intros n H.
    + exists "", "". apply andb_prop in H. destruct H as [H1 H2].
      apply Nat.leb_le in H1, H2. cbn. repeat split; auto; lia.
    + destruct (is_digit c) eqn:Hc.
      * destruct (IH (S n) H) as (ds & fin & -> & Hds & Hfin & Hlen).
        exists (String c ds), fin. cbn [tous_chiffres String.length append].
        rewrite Hc, Hds. repeat split; auto; lia.
      * apply andb_prop in H. destruct H as [H H4].
        apply andb_prop in H. destruct H as [H H3].
        apply andb_prop in H. destruct H as [H1 H2].
        apply Ascii.eqb_eq in H1. apply String.eqb_eq in H2.
        apply Nat.leb_le in H3, H4.
        subst. exists "", nl. cbn. repeat split; auto; lia.
  - intros (ds & fin & -> & Hds & Hfin & Hlen). revert n Hlen.
    induction ds as [| c ds IH]; intros n Hlen.
    + cbn [String.length] in Hlen. cbn [append].
      assert (H1 : (9 <=? n)%nat = true) by (apply Nat.leb_le; lia).
      assert (H2 : (n <=? 15)%nat = true) by (apply Nat.leb_le; lia).
      destruct Hfin as [-> | ->]; unfold nl; cbn [chiffres_puis_fin].
      * rewrite H1, H2. reflexivity.
      * change (is_digit (ascii_of_nat 10)) with false. cbv iota.
        rewrite Ascii.eqb_refl, H1, H2. reflexivity.
    + cbn [tous_chiffres] in Hds. apply andb_prop in Hds.
      destruct Hds as [Hc Hds]. cbn [append chiffres_puis_fin].
      rewrite Hc. apply (IH Hds). cbn [String.length] in Hlen. lia.
Qed.

(** X2: [telephone_valide] accepts exactly an optional "+", then 9 to 15
    ASCII digits, then nothing or one final line feed (the [$] of the
    pattern also matches before a line feed that ends the string). *)
Theorem telephone_valide_spec (numero : string) :
  telephone_valide numero = true
  <-> exists plus ds fin,
        numero = plus ++ ds ++ fin
        /\ (plus = "" \/ plus = "+")
        /\ tous_chiffres ds = true
        /\ (9 <= String.length ds <= 15)%nat
        /\ (fin = "" \/ fin = nl).
Proof.
  unfold telephone_valide. split.
  - intros H. destruct numero as [| c rest].
    + apply chiffres_puis_fin_spec in H.
      destruct H as (ds & fin & Heq & _ & _ & Hlen).
      destruct ds; [simpl in Hlen; lia | discriminate Heq].
    + destruct (Ascii.eqb_spec c "+"%char) as [-> | Hc];
        apply chiffres_puis_fin_spec in H;
        destruct H as (ds & fin & Heq & Hds & Hfin & Hlen).
      * exists "+", ds, fin. rewrite Heq. simpl. auto.
      * exists "", ds, fin. simpl. auto.
  - intros (plus & ds & fin & -> & Hplus & Hds & Hlen & Hfin).
    assert (Hrest : chiffres_puis_fin (ds ++ fin) 0 = true).
    { apply chiffres_puis_fin_spec. exists ds, fin. simpl. auto. }
    destruct Hplus as [-> | ->]; simpl.
    + destruct ds as [| c ds]; [simpl in Hlen; lia |].
      simpl in Hds. apply andb_prop in Hds. destruct Hds as [Hc _].
      change (String c ds ++ fin) with (String c (ds ++ fin)) in *.
      cbv iota. destruct (Ascii.eqb_spec c "+"%char) as [-> | _];
        [discriminate Hc | exact Hrest].
    + exact Hrest.
Qed.

Example telephone_valide_exemples :
  telephone_valide "+243970000001" = true
  /\ telephone_valide "0970000001" = true
  /\ telephone_valide ("+243970000001" ++ nl) = true
  /\ telephone_valide "12345678" = false
  /\ telephone_valide "1234567890123456" = false
  /\ telephone_valide "+243 970 000 001" = false
  /\ telephone_valide "++243970000001" = false
  /\ telephone_valide "" = false.
Proof. repeat split. Qed.

(* ================================================================== *)
(** * Member codes *)
(* ================================================================== *)

Lemma lire_nat_zeros (k : nat) (d : string) :
  lire_nat (zeros k ++ d) = lire_nat d.
Proof.
  induction k as [| k IH]; [reflexivity |].
  unfold lire_nat in *. cbn [zeros append NilEmpty.uint_of_string].
  destruct (NilEmpty.uint_of_string (zeros k ++ d)) as [u |];
    destruct (NilEmpty.uint_of_string d) as [u' |];
    try discriminate IH; [| reflexivity].
  cbn in IH. injection IH as IH. cbn. f_equal. exact IH.
Qed.

Lemma lire_nat_str_nat (n : nat) : lire_nat (str_nat n) = Some n.
Proof.
  unfold lire_nat, str_nat. rewrite NilEmpty.usu. cbn.
  rewrite Unsigned.of_to. reflexivity.
Qed.

(** The decimal digits of [:04d] write the number back. *)
Lemma lire_format_04d (n : Z) :
  0 <= n -> lire_nat (format_04d n) = Some (Z.to_nat n).
Proof.
  intros Hn. unfold format_04d.
  destruct (Z.ltb_spec n 0) as [Hneg | _]; [lia |].
  rewrite lire_nat_zeros, Z.abs_eq by exact Hn. apply lire_nat_str_nat.
Qed.

Lemma format_04d_inj (a b : Z) :
  0 <= a -> 0 <= b -> format_04d a = format_04d b -> a = b.
Proof.
  intros Ha Hb H.
  assert (H' : Some (Z.to_nat a) = Some (Z.to_nat b))
    by (rewrite <- (lire_format_04d a Ha), <- (lire_format_04d b Hb), H;
        reflexivity).
  injection H' as H'. lia.
Qed.

Lemma dernier_membre_max (ms : list Membre) :
  match dernier_membre ms with
  | Some m => In m ms /\ forall m', In m' ms -> membre_id m' <= membre_id m
  | None => ms = []
  end.
Proof.
  induction ms as [| m ms IH]; cbn [dernier_membre]; [reflexivity |].
  destruct (dernier_membre ms) as [m0 |].
  - destruct IH as [Hin Hmax].
    destruct (Z.ltb_spec (membre_id m0) (membre_id m)) as [Hlt | Hge].
    + split; [left; reflexivity |].
      intros m' [<- | Hm']; [lia | specialize (Hmax m' Hm'); lia].
    + split; [right; exact Hin |].
      intros m' [<- | Hm']; [exact Hge | exact (Hmax m' Hm')].
  - subst ms. split; [left; reflexivity |].
    intros m' [<- | []]. lia.
Qed.

Lemma numero_suivant_gt (s : Store) (m : Membre) :
  In m (membres s) -> membre_id m < numero_suivant s.
Proof.
  intros Hm. unfold numero_suivant.
  pose proof (dernier_membre_max (membres s)) as H.
  destruct (dernier_membre (membres s)) as [m0 |].
  - destruct H as [_ H]. specialize (H m Hm). lia.
  - rewrite H in Hm. contradiction.
Qed.

(** X3: the code that [generer_code_membre] gives is fresh. When every
    member has a positive identifier and carries the code of its own
    identifier ("CBCA-VUL-" and the identifier on at least 4 digits), the
    new code is the code of the successor of the greatest identifier and
    no member carries it; in an empty table it is "CBCA-VUL-0001". *)
Theorem generer_code_membre_frais (s : Store) :
  (forall m, In m (membres s) ->
     0 < membre_id m
     /\ code_membre m = "CBCA-VUL-" ++ format_04d (membre_id m)) ->
  (forall m, In m (membres s) -> code_membre m <> generer_code_membre s)
  /\ (forall m, In m (membres s) -> membre_id m < numero_suivant s)
  /\ (membres s = [] -> generer_code_membre s = "CBCA-VUL-0001").
Proof.
  intros H. repeat split.
  - intros m Hm Heq. destruct (H m Hm) as [Hpos Hcode].
    unfold generer_code_membre in Heq. rewrite Hcode in Heq.
    cbn [append] in Heq. injection Heq as Heq.
    pose proof (numero_suivant_gt s m Hm) as Hlt.
    apply format_04d_inj in Heq; lia.
  - intros m Hm. apply numero_suivant_gt. exact Hm.
  - intros Hvide. unfold generer_code_membre, numero_suivant.
    rewrite Hvide. reflexivity.
Qed.

(** The theorem on [store0], whose members carry the codes 0001 to 0003. *)
Lemma generer_code_membre_frais_store0 :
  (forall m, In m (membres Demo.store0) ->
     code_membre m <> generer_code_membre Demo.store0)
  /\ generer_code_membre Demo.store0 = "CBCA-VUL-0004".
Proof.
  split; [| reflexivity].
  apply (generer_code_membre_frais Demo.store0).
  intros m Hm. simpl in Hm.
  destruct Hm as [<- | [<- | [<- | []]]]; split; reflexivity.
Defined.

Example format_04d_exemples :
  format_04d 7 = "0007" /\ format_04d 1234 = "1234"
  /\ format_04d 12345 = "12345" /\ format_04d 0 = "0000"
  /\ format_04d (-5) = "-005".
Proof. repeat split. Qed.

(* ================================================================== *)
(** * Who may create a commitment *)
(* ================================================================== *)

Lemma membre_par_telephone_some (s : Store) (u : string) (m : Membre) :
  membre_par_telephone s u = Some m ->
  In m (membres s) /\ telephone m = Some u.
Proof.
  unfold membre_par_telephone. intros H. apply find_some in H.
  destruct H as [Hin Ht]. split; [exact Hin |].
  destruct (telephone m) as [t |]; [| discriminate Ht].
  apply String.eqb_eq in Ht. rewrite Ht. reflexivity.
Qed.

(** X4: through the member's own form, under [role_required('membre')], a
    request either leaves the database and the session as they were, or
    comes from an authenticated user of role "membre", is a POST, and
    commits one commitment whose owner is a member whose telephone is the
    user's login name: nobody subscribes for somebody else. *)
Theorem souscrire_pour_soi (env : Env) (current_user : option User)
  (method : Method) (f : EngagementForm) (w : World) :
  (db (snd (run (souscrire_engagement_membre_route env current_user method f)
              w)) = db w
   /\ session (snd (run (souscrire_engagement_membre_route env current_user
                           method f) w)) = session w)
  \/ (exists u m v d,
        current_user = Some u
        /\ role u = "membre"
        /\ method = POST
        /\ In m (membres (session w))
        /\ telephone m = Some (username u)
        /\ db (snd (run (souscrire_engagement_membre_route env current_user
                           method f) w))
           = add_engagement (nouvel_engagement env (session w) m v d f)
               (session w)).
Proof.
  unfold souscrire_engagement_membre_route, role_required.
  destruct current_user as [u |]; [| left; split; reflexivity].
  cbn [existsb]. rewrite orb_false_r.
  destruct (String.eqb_spec (role u) "membre") as [Hrole | _];
    [| left; split; reflexivity].
  unfold souscrire_engagement_membre, nouvel_engagement. view_unfold.
  destruct (membre_par_telephone (session w) (username u)) as [m |] eqn:Hm;
    [| left; split; reflexivity].
  destruct (membre_par_telephone_some _ _ _ Hm) as [Hin Htel].
  destruct method; [left; split; reflexivity |].
  repeat (case_step; simpl); try (left; split; reflexivity);
    right; exists u, m; do 2 eexists; repeat split; auto.
Qed.

Example souscrire_route_exemples :
  (* an administrator is turned away *)
  run (souscrire_engagement_membre_route Demo.env_ok
         (Some (mkUser "admin" "admin")) POST
         (mkEngagementForm None (Some "10") (Some "2025-06-30") None))
      Demo.world0
  = (Redirect "accueil",
     mkWorld Demo.store0 Demo.store0 [] [(Msg "Accès non autorisé", "danger")])
  (* Alice subscribes for herself *)
  /\ map eng_membre_id
       (engagements
          (db (snd (run (souscrire_engagement_membre_route Demo.env_ok
                          (Some (mkUser "+243970000003" "membre")) POST
                          (mkEngagementForm (Some 1) (Some "10")
                             (Some "2025-06-30") None))
                       Demo.world0))))
     = [1; 2; 3; 3].
Proof. split; reflexivity. Qed.

(* ================================================================== *)
(** * Editing a commitment *)
(* ================================================================== *)

(** X5: editing a commitment that does not exist answers 404 and does
    nothing; editing an existing one with an amount that is absent, does
    not parse or is [<= 0], or with a due date that is absent or does not
    parse, redirects to the list with one flashed message and changes
    neither the database nor the session. *)
Theorem modifier_engagement_refuse (env : Env) (id : Z)
  (f : ModifierEngagementForm) (w : World) :
  (query_get engagement_id (engagements (session w)) (Some id) = None ->
   run (modifier_engagement env id f) w = (NotFound, w))
  /\ (forall e,
        query_get engagement_id (engagements (session w)) (Some id) = Some e ->
        montant_refuse env (me_montant_total f)
        \/ date_refusee env (me_date_limite f) ->
        exists msg cat,
          run (modifier_engagement env id f) w
          = (Redirect "liste_engagements",
             mkWorld (db w) (session w) (whatsapp w)
                     (flashes w ++ [(Msg msg, cat)]))).
Proof.
  split.
  - intros H. unfold modifier_engagement. view_unfold. rewrite H.
    reflexivity.
  - intros e He H. unfold modifier_engagement. view_unfold. rewrite He.
    repeat (case_step; simpl); use_cases;
      try (do 2 eexists; reflexivity);
      try (destruct H as [H | H]; congruence).
Qed.

(** The theorem on [world0]: no commitment 9; the amount "gratuit". *)
Lemma modifier_engagement_refuse_world0 :
  run (modifier_engagement Demo.env_ok 9
         (mkModifierEngagementForm (Some "10") (Some "2025-06-30") None None))
      Demo.world0
  = (NotFound, Demo.world0)
  /\ exists msg cat,
       run (modifier_engagement Demo.env_ok 1
              (mkModifierEngagementForm (Some "gratuit") (Some "2025-06-30")
                 None None))
           Demo.world0
       = (Redirect "liste_engagements",
          mkWorld Demo.store0 Demo.store0 [] [(Msg msg, cat)]).
Proof.
  split.
  - apply (proj1 (modifier_engagement_refuse Demo.env_ok 9 _ Demo.world0)).
    reflexivity.
  - apply (proj2 (modifier_engagement_refuse Demo.env_ok 1
                    (mkModifierEngagementForm (Some "gratuit")
                       (Some "2025-06-30") None None) Demo.world0)
             (mkEngagement 1 1 (Demo.float_of_Z 100) (mkDate 2025 4 1)
                "Construction" EN_COURS) eq_refl).
    left. vm_compute. exact I.
Defined.

Lemma modifier_engagement_run (env : Env) (id : Z)
  (f : ModifierEngagementForm) (e : Engagement) (w : World) (v : float)
  (d : date) :
  query_get engagement_id (engagements (session w)) (Some id) = Some e ->
  montant_accepte env (me_montant_total f) v ->
  date_acceptee env (me_date_limite f) d ->
  run (modifier_engagement env id f) w
  = (Redirect "liste_engagements",
     mkWorld
       (update_engagement id
          (fun e => mkEngagement (engagement_id e) (eng_membre_id e) v d
                      (form_get_strip env (me_description f) "")
                      (form_get_strip env (me_statut f) "en cours"))
          (session w))
       (update_engagement id
          (fun e => mkEngagement (engagement_id e) (eng_membre_id e) v d
                      (form_get_strip env (me_description f) "")
                      (form_get_strip env (me_statut f) "en cours"))
          (session w))
       (whatsapp w)
       (flashes w ++ [(Msg "Engagement modifié avec succès", "success")])).
Proof.
  intros He Hv Hd. unfold modifier_engagement. view_unfold. rewrite He.
  use_cases. reflexivity.
Qed.

Lemma map_update_key {A B : Type} (key : A -> Z) (g : A -> B) (id : Z)
  (f : A -> A) (l : list A) :
  (forall a, g (f a) = g a) ->
  map g (map (fun a => if Z.eqb (key a) id then f a else a) l) = map g l.
Proof.
  intros Hf. rewrite map_map. apply map_ext. intros a.
  destruct (Z.eqb (key a) id); [apply Hf | reflexivity].
Qed.

Lemma in_update_other {A : Type} (key : A -> Z) (id : Z) (f : A -> A)
  (l : list A) (a : A) :
  In a l -> key a <> id ->
  In a (map (fun a => if Z.eqb (key a) id then f a else a) l).
Proof.
  intros Hin Hne. apply in_map_iff. exists a. split; [| exact Hin].
  destruct (Z.eqb_spec (key a) id); [contradiction | reflexivity].
Qed.

Lemma in_update_target {A : Type} (key : A -> Z) (id : Z) (f : A -> A)
  (l : list A) (a : A) :
  In a (map (fun a => if Z.eqb (key a) id then f a else a) l) ->
  key a = id ->
  (forall a, key (f a) = key a) ->
  exists a0, In a0 l /\ a = f a0.
Proof.
  intros Hin Hid Hf. apply in_map_iff in Hin. destruct Hin as (a0 & Heq & Hin).
  exists a0. split; [exact Hin |].
  destruct (Z.eqb_spec (key a0) id) as [_ | Hne]; [symmetry; exact Heq |].
  subst a. contradiction.
Qed.

(** X6: an accepted edit of commitment [id] is committed and touches that
    commitment alone: identifiers and owners of all commitments, the other
    commitments, the payments and the notifications stay as they were, and
    no message is sent. The edited commitment takes the submitted amount,
    due date, description and status; when the form carries no status, the
    stored status becomes "en cours" whatever it was. *)
Theorem modifier_engagement_cible (env : Env) (id : Z)
  (f : ModifierEngagementForm) (e : Engagement) (w : World) (v : float)
  (d : date) :
  query_get engagement_id (engagements (session w)) (Some id) = Some e ->
  montant_accepte env (me_montant_total f) v ->
  date_acceptee env (me_date_limite f) d ->
  let w' := snd (run (modifier_engagement env id f) w) in
  session w' = db w'
  /\ whatsapp w' = whatsapp w
  /\ map engagement_id (engagements (db w'))
     = map engagement_id (engagements (session w))
  /\ map eng_membre_id (engagements (db w'))
     = map eng_membre_id (engagements (session w))
  /\ paiements (db w') = paiements (session w)
  /\ notifications (db w') = notifications (session w)
  /\ (forall e', In e' (engagements (session w)) -> engagement_id e' <> id ->
        In e' (engagements (db w')))
  /\ (forall e', In e' (engagements (db w')) -> engagement_id e' = id ->
        montant_total e' = v
        /\ date_limite e' = d
        /\ description e' = form_get_strip env (me_description f) ""
        /\ statut e' = form_get_strip env (me_statut f) "en cours"
        /\ (me_statut f = None -> statut e' = strip env "en cours")).
Proof.
  intros He Hv Hd w'. subst w'.
  rewrite (modifier_engagement_run env id f e w v d He Hv Hd).
  cbn [snd db session whatsapp update_engagement engagements paiements
       notifications].
  repeat split.
  - apply map_update_key. reflexivity.
  - apply map_update_key. reflexivity.
  - intros e' Hin Hne. apply in_update_other; assumption.
  - destruct (in_update_target engagement_id id _ _ e' H H0 (fun _ => eq_refl))
      as (e0 & _ & ->). reflexivity.
  - destruct (in_update_target engagement_id id _ _ e' H H0 (fun _ => eq_refl))
      as (e0 & _ & ->). reflexivity.
  - destruct (in_update_target engagement_id id _ _ e' H H0 (fun _ => eq_refl))
      as (e0 & _ & ->). reflexivity.
  - destruct (in_update_target engagement_id id _ _ e' H H0 (fun _ => eq_refl))
      as (e0 & _ & ->). reflexivity.
  - intros Hs.
    destruct (in_update_target engagement_id id _ _ e' H H0 (fun _ => eq_refl))
      as (e0 & _ & ->). cbn. rewrite Hs. reflexivity.
Qed.

(** The theorem on a world where Kavira's commitment is settled: an edit
    of its amount, sent without status, reopens it. *)
Lemma modifier_engagement_cible_exemple :
  let w := snd (run (modifier_engagement Demo.env_ok 1
                       (mkModifierEngagementForm (Some "100")
                          (Some "2025-04-01") (Some "Construction")
                          (Some "payé")))
                    Demo.world0) in
  map statut (engagements (db w)) = [PAYE; EN_COURS; EN_COURS]
  /\ forall e', In e' (engagements
                         (db (snd (run (modifier_engagement Demo.env_ok 1
                                          (mkModifierEngagementForm
                                             (Some "120") (Some "2025-04-01")
                                             (Some "Construction") None))
                                       w)))) ->
       engagement_id e' = 1 ->
       montant_total e' = Demo.float_of_Z 120 /\ statut e' = EN_COURS.
Proof.
  intros w. split; [reflexivity |].
  intros e' Hin Hid.
  pose proof (modifier_engagement_cible Demo.env_ok 1
                (mkModifierEngagementForm (Some "120") (Some "2025-04-01")
                   (Some "Construction") None)
                (mkEngagement 1 1 (Demo.float_of_Z 100) (mkDate 2025 4 1)
                   "Construction" PAYE)
                w (Demo.float_of_Z 120) (mkDate 2025 4 1) eq_refl) as H.
  destruct H as (_ & _ & _ & _ & _ & _ & _ & H).
  - exists "120". repeat split; vm_compute; reflexivity.
  - exists "2025-04-01". split; vm_compute; reflexivity.
  - destruct (H e' Hin Hid) as (Hv & _ & _ & _ & Hs).
    split; [exact Hv | exact (Hs eq_refl)].
Defined.

(* ================================================================== *)
(** * A commitment created for a member without baptism card *)
(* ================================================================== *)

(** X7: in [ajouter_engagement] the commitment is committed before the
    WhatsApp message is built. When the form is valid and the member has a
    messaging key and no baptism card, reading the card's name raises
    after the commit: the form is rendered again with a flashed error, no
    message is sent, and the commitment stays in the database. Through the
    member's own form the same member gets the message, under his member
    code, and the success page. *)
Theorem engagement_persiste_malgre_erreur (env : Env) (f : EngagementForm)
  (w : World) (m : Membre) (v : float) (d : date) :
  montant_accepte env (ef_montant f) v ->
  date_acceptee env (ef_date_limite f) d ->
  truthy (apikey_callmebot m) = true ->
  membre_cartebapteme (session w) m = None ->
  (query_get membre_id (membres (session w)) (ef_membre_id f) = Some m ->
   run (ajouter_engagement env POST f) w
   = (Render "engagements/ajouter.html" None,
      mkWorld
        (add_engagement (nouvel_engagement env (session w) m v d f) (session w))
        (add_engagement (nouvel_engagement env (session w) m v d f) (session w))
        (whatsapp w)
        (flashes w ++ [(MsgExn "Erreur: " AttributeError, "danger")])))
  /\ (forall u,
        membre_par_telephone (session w) u = Some m ->
        fst (run (souscrire_engagement_membre env u POST f) w)
        = Redirect "mes_engagements"
        /\ exists ok,
             whatsapp (snd (run (souscrire_engagement_membre env u POST f) w))
             = (whatsapp w
                ++ [mkEnvoi (telephone m) (apikey_callmebot m)
                      ("Bonjour " ++ code_membre m ++ ", votre engagement de "
                       ++ fmt2f env v ++ "$ a été enregistré. "
                       ++ "Date limite : " ++ strftime_dmy env d ++ ".")
                      ok])%list).
Proof.
  intros Hv Hd Hkey Hcarte. split.
  - intros Hm.
    unfold ajouter_engagement, ajouter_engagement_post, nouvel_engagement.
    view_unfold. use_cases. cbn.
    unfold membre_cartebapteme in *. cbn. rewrite Hcarte. reflexivity.
  - intros u Hm.
    unfold souscrire_engagement_membre. view_unfold. use_cases. cbn.
    unfold membre_cartebapteme in *. cbn. rewrite Hcarte. cbn.
    split; [reflexivity | eexists; reflexivity].
Qed.

(** The theorem at Paul, who has a key and no card. *)
Lemma engagement_persiste_malgre_erreur_paul :
  run (ajouter_engagement Demo.env_ok POST
         (mkEngagementForm (Some 2) (Some "30") (Some "2025-06-30") None))
      Demo.world0
  = (Render "engagements/ajouter.html" None,
     mkWorld
       (add_engagement
          (mkEngagement 4 2 (Demo.float_of_Z 30) (mkDate 2025 6 30) "" EN_COURS)
          Demo.store0)
       (add_engagement
          (mkEngagement 4 2 (Demo.float_of_Z 30) (mkDate 2025 6 30) "" EN_COURS)
          Demo.store0)
       [] [(MsgExn "Erreur: " AttributeError, "danger")]).
Proof.
  refine (eq_trans
            (proj1 (engagement_persiste_malgre_erreur Demo.env_ok
                      (mkEngagementForm (Some 2) (Some "30")
                         (Some "2025-06-30") None)
                      Demo.world0
                      (mkMembre 2 "CBCA-VUL-0002" None (Some "+243970000002")
                         (Some "APIKEY0002"))
                      (Demo.float_of_Z 30) (mkDate 2025 6 30)
                      _ _ eq_refl eq_refl) eq_refl) _).
  - exists "30". repeat split; vm_compute; reflexivity.
  - exists "2025-06-30". split; vm_compute; reflexivity.
  - vm_compute. reflexivity.
Defined.

(* ================================================================== *)
(** * The answers of the gateway *)
(* ================================================================== *)

(** Finishes the comparison of two runs that differ by the gateway. *)
Ltac indifferente :=
  repeat (case_step; cbn);
  unfold sans_reponses; cbn; rewrite ?map_app; split; reflexivity.

Lemma sans_reponses_inv (w1 w2 : World) :
  sans_reponses w1 = sans_reponses w2 ->
  db w1 = db w2 /\ session w1 = session w2 /\ flashes w1 = flashes w2.
Proof.
  intros H. repeat split.
  - exact (f_equal db H).
  - exact (f_equal session H).
  - exact (f_equal flashes H).
Qed.

Lemma notifier_boucle_gateway (env : Env)
  (g1 g2 : nat -> option string -> option string -> string -> bool)
  (es : list Engagement) :
  forall cpt w1 w2,
    sans_reponses w1 = sans_reponses w2 ->
    fst (notifier_boucle (avec_gateway g1 env) es cpt w1)
    = fst (notifier_boucle (avec_gateway g2 env) es cpt w2)
    /\ sans_reponses (snd (notifier_boucle (avec_gateway g1 env) es cpt w1))
       = sans_reponses (snd (notifier_boucle (avec_gateway g2 env) es cpt w2)).
Proof.
  induction es as [| e es IH]; intros cpt w1 w2 H.
  - split; [reflexivity | exact H].
  - destruct w1 as [d1 s1 l1 f1], w2 as [d2 s2 l2 f2].
    assert (Hinv := H). unfold sans_reponses in Hinv. cbn in Hinv.
    injection Hinv as -> -> Hw ->.
    cbn [notifier_boucle]. view_unfold. cbn [session db whatsapp flashes].
    destruct (engagement_membre s2 e) as [m |]; [| apply IH; exact H].
    destruct (coordonnees_completes (Some m)); [| apply IH; exact H].
    destruct (membre_cartebapteme s2 m) as [c |];
      [| split; [reflexivity | exact H]].
    apply IH. unfold sans_reponses. cbn [session db whatsapp flashes].
    rewrite !map_app, Hw. reflexivity.
Qed.

(** X8: no view of [app.py] looks at what the gateway answers. Run with
    two gateways, every view gives the same response and the same world
    (database, session, flashed messages, and messages handed to the
    gateway), the recorded answers apart: a message that the gateway fails
    to deliver is reported and recorded like a delivered one. *)
Theorem reponse_gateway_ignoree :
  indifferente_au_gateway notifier_tous_membres
  /\ (forall id,
        indifferente_au_gateway (fun env => notifier_membre_engagement env id))
  /\ (forall method f,
        indifferente_au_gateway (fun env => ajouter_engagement env method f))
  /\ (forall u method f,
        indifferente_au_gateway
          (fun env => souscrire_engagement_membre env u method f))
  /\ (forall id f,
        indifferente_au_gateway (fun env => modifier_engagement env id f))
  /\ (forall method f,
        indifferente_au_gateway (fun env => ajouter_paiement env method f))
  /\ (forall id f,
        indifferente_au_gateway (fun env => modifier_paiement env id f)).
Proof.
  unfold indifferente_au_gateway.
  split; [| split; [| split; [| split; [| split; [| split]]]]]; intros.
  - unfold notifier_tous_membres. view_unfold.
    destruct (notifier_boucle_gateway env g1 g2
                (engagements_non_payes (session w)) 0%nat w w eq_refl)
      as [Hfst Hsnd].
    destruct (notifier_boucle (avec_gateway g1 env) _ 0%nat w) as [o1 w1].
    destruct (notifier_boucle (avec_gateway g2 env) _ 0%nat w) as [o2 w2].
    cbn [fst snd] in Hfst, Hsnd. subst o2.
    destruct (sans_reponses_inv w1 w2 Hsnd) as (Hdb & Hs & Hf).
    pose proof (f_equal whatsapp Hsnd) as Hw.
    destruct o1; cbn; (split; [reflexivity |]); try exact Hsnd.
    unfold sans_reponses in *. cbn in *. rewrite Hdb, Hs, Hf, Hw.
    reflexivity.
  - unfold notifier_membre_engagement, message_rappel. view_unfold. cbn.
    indifferente.
  - unfold ajouter_engagement, ajouter_engagement_post, form_get_strip.
    view_unfold. cbn. destruct method; cbn; indifferente.
  - unfold souscrire_engagement_membre, form_get_strip. view_unfold. cbn.
    indifferente.
  - unfold modifier_engagement, form_get_strip. view_unfold. cbn.
    indifferente.
  - unfold ajouter_paiement, ajouter_paiement_post. view_unfold. cbn.
    destruct method; cbn; indifferente.
  - unfold modifier_paiement. view_unfold. cbn. indifferente.
Qed.

(** The manual reminder of Kavira's commitment with a gateway that
    delivers and with one that fails. *)
Example reponse_gateway_ignoree_exemple :
  fst (run (notifier_membre_engagement Demo.env_ok 1) Demo.world0)
  = fst (run (notifier_membre_engagement Demo.env_ko 1) Demo.world0)
  /\ flashes (snd (run (notifier_membre_engagement Demo.env_ko 1) Demo.world0))
     = [(Msg "Notification envoyée avec succès.", "success")]
  /\ map notif_statut
       (notifications
          (db (snd (run (notifier_membre_engagement Demo.env_ko 1)
                      Demo.world0))))
     = ["envoyée"].
Proof. repeat split. Qed.

(* ================================================================== *)
(** * The receipt of a payment *)
(* ================================================================== *)

Lemma total_paye_add_meme (s : Store) (e : Engagement) (p : Paiement) :
  pai_engagement_id p = engagement_id e ->
  total_paye (add_paiement p s) e = (total_paye s e + montant p)%float.
Proof.
  intros Hp. unfold total_paye. rewrite (engagement_paiements_add s e p Hp).
  rewrite map_app. cbn [map]. apply sum_app_one.
Qed.

Lemma total_paye_add_autre (s : Store) (e : Engagement) (p : Paiement) :
  pai_engagement_id p <> engagement_id e ->
  total_paye (add_paiement p s) e = total_paye s e
  /\ montant_restant (add_paiement p s) e = montant_restant s e.
Proof.
  intros Hp.
  assert (H : engagement_paiements (add_paiement p s) e
              = engagement_paiements s e).
  { unfold engagement_paiements. cbn [paiements add_paiement].
    rewrite filter_app. cbn [filter].
    destruct (Z.eqb_spec (pai_engagement_id p) (engagement_id e));
      [contradiction | apply app_nil_r]. }
  unfold montant_restant, total_paye. rewrite H. split; reflexivity.
Qed.

(** X9: a valid payment for a commitment whose member has a baptism card
    is committed and answered by the receipt of that very payment: the
    name on the card, the amount, the date kept, the due date and the
    total of the commitment, and a remaining amount that already counts
    the payment, [max(0, total - (paid before + amount))]. One message goes
    to the member when he has a messaging key, none otherwise, and nothing
    is flashed. *)
Theorem recu_paiement (env : Env) (f : PaiementForm) (w : World)
  (e : Engagement) (v : float) (m : Membre) (c : CarteBapteme) :
  query_get engagement_id (engagements (session w)) (pf_engagement_id f)
  = Some e ->
  montant_accepte env (pf_montant f) v ->
  engagement_membre (session w) e = Some m ->
  membre_cartebapteme (session w) m = Some c ->
  let w' := snd (run (ajouter_paiement env POST f) w) in
  fst (run (ajouter_paiement env POST f) w)
  = Render "paiements/ajouter.html"
      (Some (mkReceipt (carte_nom c) v
               (strftime_dmy env (date_retenue env (pf_date_paiement f)))
               (strftime_dmy env (date_limite e))
               (montant_total e)
               (Py.max 0 (montant_total e - (total_paye (session w) e + v)))))
  /\ db w' = add_paiement (nouveau_paiement env (session w) e v f) (session w)
  /\ flashes w' = flashes w
  /\ (truthy (apikey_callmebot m) = false -> whatsapp w' = whatsapp w)
  /\ (truthy (apikey_callmebot m) = true ->
      exists ok,
        whatsapp w'
        = (whatsapp w
           ++ [mkEnvoi (telephone m) (apikey_callmebot m)
                 ("Bonjour " ++ or_else (carte_nom c) (code_membre m)
                  ++ ", votre paiement de " ++ fmt2f env v
                  ++ "$ a été enregistré pour l'engagement prévu le "
                  ++ strftime_dmy env (date_limite e) ++ ".")
                 ok])%list).
Proof.
  intros He Hv Hm Hc w'. subst w'.
  assert (Hreste :
    montant_restant
      (add_paiement (nouveau_paiement env (session w) e v f) (session w)) e
    = Py.max 0 (montant_total e - (total_paye (session w) e + v))%float).
  { unfold montant_restant. rewrite total_paye_add_meme; reflexivity. }
  rewrite <- Hreste. clear Hreste.
  unfold ajouter_paiement, ajouter_paiement_post, nouveau_paiement,
    date_retenue.
  view_unfold. use_cases.
  destruct (pf_date_paiement f) as [ds |];
    [destruct (strptime_ymd env ds) |]; simpl;
    rewrite !engagement_membre_add_paiement, Hm;
    rewrite !membre_cartebapteme_add_paiement, Hc;
    destruct (truthy (apikey_callmebot m)); simpl;
    repeat split; try discriminate; intros _; eexists; reflexivity.
Qed.

(** The theorem at Kavira's commitment of 100, with a payment of 40. *)
Lemma recu_paiement_kavira :
  fst (run (ajouter_paiement Demo.env_ok POST
              (mkPaiementForm (Some 1) (Some "40") (Some "2025-03-09")))
           Demo.world0)
  = Render "paiements/ajouter.html"
      (Some (mkReceipt (Some "Kavira Marie") (Demo.float_of_Z 40)
               "09/03/2025" "01/04/2025" (Demo.float_of_Z 100)
               (Demo.float_of_Z 60))).
Proof.
  refine (eq_trans
            (proj1 (recu_paiement Demo.env_ok
                      (mkPaiementForm (Some 1) (Some "40") (Some "2025-03-09"))
                      Demo.world0
                      (mkEngagement 1 1 (Demo.float_of_Z 100)
                         (mkDate 2025 4 1) "Construction" EN_COURS)
                      (Demo.float_of_Z 40)
                      (mkMembre 1 "CBCA-VUL-0001" (Some 1)
                         (Some "+243970000001") (Some "APIKEY0001"))
                      (mkCarte 1 "CB001" (Some "Kavira Marie"))
                      eq_refl _ eq_refl eq_refl)) _).
  - exists "40". repeat split; vm_compute; reflexivity.
  - vm_compute. reflexivity.
Defined.

(* ================================================================== *)
(** * An accepted edit of a payment *)
(* ================================================================== *)

(** X10: editing a payment that does not exist answers 404 and does
    nothing, whatever the form holds. An accepted edit of payment [id] is
    committed and touches that payment alone: it takes the new amount and
    the new date and keeps its commitment; identifiers and commitments of
    all payments, the other payments, the commitments and the
    notifications stay as they were, and no message is sent. *)
Theorem modifier_paiement_cible (env : Env) (id : Z)
  (f : ModifierPaiementForm) (w : World) :
  (query_get paiement_id (paiements (session w)) (Some id) = None ->
   run (modifier_paiement env id f) w = (NotFound, w))
  /\ (forall p v d,
        query_get paiement_id (paiements (session w)) (Some id) = Some p ->
        montant_accepte env (mp_montant f) v ->
        date_acceptee env (mp_date_paiement f) d ->
        session (snd (run (modifier_paiement env id f) w))
        = db (snd (run (modifier_paiement env id f) w))
        /\ whatsapp (snd (run (modifier_paiement env id f) w)) = whatsapp w
        /\ engagements (db (snd (run (modifier_paiement env id f) w)))
           = engagements (session w)
        /\ notifications (db (snd (run (modifier_paiement env id f) w)))
           = notifications (session w)
        /\ map paiement_id
             (paiements (db (snd (run (modifier_paiement env id f) w))))
           = map paiement_id (paiements (session w))
        /\ map pai_engagement_id
             (paiements (db (snd (run (modifier_paiement env id f) w))))
           = map pai_engagement_id (paiements (session w))
        /\ (forall p', In p' (paiements (session w)) -> paiement_id p' <> id ->
              In p' (paiements (db (snd (run (modifier_paiement env id f) w)))))
        /\ (forall p',
              In p' (paiements (db (snd (run (modifier_paiement env id f) w)))) ->
              paiement_id p' = id ->
              montant p' = v /\ date_paiement p' = d)).
Proof.
  split.
  - intros H. unfold modifier_paiement. view_unfold. rewrite H. reflexivity.
  - intros p v d Hp Hv Hd.
    rewrite (modifier_paiement_accepte env id f p w v d Hp Hv Hd).
    cbn [snd db session whatsapp update_paiement engagements paiements
         notifications].
    repeat split.
    + rewrite !(map_update_key paiement_id paiement_id); reflexivity.
    + rewrite !(map_update_key paiement_id pai_engagement_id); reflexivity.
    + intros p' Hin Hne. apply in_update_other; [| exact Hne].
      apply in_update_other; assumption.
    + destruct (in_update_target paiement_id id _ _ p' H H0
                  (fun _ => eq_refl)) as (p0 & _ & ->). reflexivity.
    + destruct (in_update_target paiement_id id _ _ p' H H0
                  (fun _ => eq_refl)) as (p0 & Hin0 & ->).
      cbn [set_montant date_paiement].
      assert (Hid0 : paiement_id p0 = id) by exact H0.
      destruct (in_update_target paiement_id id _ _ p0 Hin0 Hid0
                  (fun _ => eq_refl)) as (p1 & _ & ->). reflexivity.
Qed.

(** The theorem on the database of [paiement_total]: payment 7 does not
    exist; payment 1 becomes 40 on 20/03/2025. *)
Lemma modifier_paiement_cible_exemple :
  run (modifier_paiement Demo.env_ok 7
         (mkModifierPaiementForm (Some "40") (Some "2025-03-20")))
      (snd Scenario.paiement_total)
  = (NotFound, snd Scenario.paiement_total)
  /\ map pai_engagement_id
       (paiements
          (db (snd (run (modifier_paiement Demo.env_ok 1
                           (mkModifierPaiementForm (Some "40")
                              (Some "2025-03-20")))
                        (snd Scenario.paiement_total)))))
     = [1].
Proof.
  split.
  - apply (proj1 (modifier_paiement_cible Demo.env_ok 7 _
                    (snd Scenario.paiement_total))).
    reflexivity.
  - pose proof (proj2 (modifier_paiement_cible Demo.env_ok 1
                         (mkModifierPaiementForm (Some "40")
                            (Some "2025-03-20"))
                         (snd Scenario.paiement_total))
                  (mkPaiement 1 1 (Demo.float_of_Z 100) (mkDate 2025 3 9))
                  (Demo.float_of_Z 40) (mkDate 2025 3 20) eq_refl) as H.
    destruct H as (_ & _ & _ & _ & _ & H & _).
    + exists "40". repeat split; vm_compute; reflexivity.
    + exists "2025-03-20". split; vm_compute; reflexivity.
    + rewrite H. reflexivity.
Defined.

(* ================================================================== *)
(** * The bulk reminder stopped by a missing card *)
(* ================================================================== *)

Lemma notifier_boucle_app (env : Env) (s : Store) (pre rest : list Engagement) :
  cartes_presentes s pre ->
  forall cpt w, session w = s ->
    exists calls,
      List.length calls = List.length (joignables s pre)
      /\ notifier_boucle env (pre ++ rest) cpt w
         = notifier_boucle env rest
             (cpt + List.length (joignables s pre))%nat
             (mkWorld (db w) (session w) (whatsapp w ++ calls) (flashes w)).
Proof.
  induction pre as [| e pre IH]; intros Hc cpt w Hs.
  - exists []. cbn. rewrite app_nil_r, Nat.add_0_r, world_eta.
    split; reflexivity.
  - assert (Hc' : cartes_presentes s pre)
      by (intros e' m' Hin; apply Hc; right; exact Hin).
    cbn [app notifier_boucle joignables filter]. view_unfold. rewrite Hs.
    destruct (engagement_membre s e) as [m |] eqn:Hm.
    + destruct (coordonnees_completes (Some m)) eqn:Hcc.
      * destruct (membre_cartebapteme s m) as [c |] eqn:Hcarte;
          [| exfalso; exact (Hc e m (or_introl eq_refl) Hm Hcc Hcarte)].
        match goal with
        | |- context [notifier_boucle env (pre ++ rest) (S cpt) ?w1] =>
            destruct (IH Hc' (S cpt) w1 Hs) as [calls [Hlen Hrun]];
            rewrite Hrun
        end.
        cbn [db session whatsapp flashes]. rewrite Hs.
        eexists (_ :: calls). rewrite <- app_assoc.
        cbn [List.length app]. fold (joignables s pre).
        rewrite Hlen, Nat.add_succ_r. split; reflexivity.
      * destruct (IH Hc' cpt w Hs) as [calls [Hlen Hrun]].
        exists calls. fold (joignables s pre). rewrite Hrun, Hs.
        split; [exact Hlen | reflexivity].
    + destruct (IH Hc' cpt w Hs) as [calls [Hlen Hrun]].
      exists calls. fold (joignables s pre). rewrite Hrun, Hs.
      split; [exact Hlen | reflexivity].
Qed.

(** X11: the bulk reminder stops at the first unsettled commitment whose
    member has a key and a telephone and no baptism card: the request ends
    in an error 500, the commitments after it get no message, the members
    reached before it have got theirs, nothing is flashed and the database
    is untouched. *)
Theorem notifier_tous_membres_interrompu (env : Env) (w : World)
  (pre rest : list Engagement) (e : Engagement) (m : Membre) :
  engagements_non_payes (session w) = (pre ++ e :: rest)%list ->
  cartes_presentes (session w) pre ->
  engagement_membre (session w) e = Some m ->
  coordonnees_completes (Some m) = true ->
  membre_cartebapteme (session w) m = None ->
  exists calls,
    List.length calls = List.length (joignables (session w) pre)
    /\ run (notifier_tous_membres env) w
       = (InternalServerError AttributeError,
          mkWorld (db w) (session w) (whatsapp w ++ calls) (flashes w)).
Proof.
  intros Hes Hpre Hm Hcc Hcarte.
  destruct (notifier_boucle_app env (session w) pre (e :: rest) Hpre 0%nat w
              eq_refl) as [calls [Hlen Hrun]].
  exists calls. split; [exact Hlen |].
  unfold notifier_tous_membres. view_unfold. rewrite Hes, Hrun.
  cbn [notifier_boucle]. view_unfold. cbn [session].
  rewrite Hm, Hcc, Hcarte. reflexivity.
Qed.

(** The theorem on [world0]: Kavira is reached, Paul has no card, Alice's
    commitment is never looked at. *)
Lemma notifier_tous_membres_interrompu_world0 :
  exists calls,
    List.length calls = 1%nat
    /\ run (notifier_tous_membres Demo.env_ok) Demo.world0
       = (InternalServerError AttributeError,
          mkWorld Demo.store0 Demo.store0 ([] ++ calls) []).
Proof.
  apply (notifier_tous_membres_interrompu Demo.env_ok Demo.world0
           [mkEngagement 1 1 (Demo.float_of_Z 100) (mkDate 2025 4 1)
              "Construction" EN_COURS]
           [mkEngagement 3 3 (Demo.float_of_Z 200) (mkDate 2025 5 1)
              "Jeunesse" EN_COURS]
           (mkEngagement 2 2 (Demo.float_of_Z 50) (mkDate 2025 4 15)
              "Chorale" EN_COURS)
           (mkMembre 2 "CBCA-VUL-0002" None (Some "+243970000002")
              (Some "APIKEY0002")));
    try reflexivity.
  intros e m Hin Hm Hc. simpl in Hin. destruct Hin as [<- | []].
  vm_compute in Hm. injection Hm as <-. vm_compute. discriminate.
Defined.

(* ================================================================== *)
(** * What every view keeps *)
(* ================================================================== *)

Lemma next_id_gt {A : Type} (key : A -> Z) (rows : list A) (r : A) :
  In r rows -> key r < next_id key rows.
Proof.
  unfold next_id. induction rows as [| a rows IH]; cbn [fold_right In].
  - contradiction.
  - intros [<- | Hin]; [lia | specialize (IH Hin); lia].
Qed.

Lemma next_id_frais {A : Type} (key : A -> Z) (rows : list A) :
  ~ In (next_id key rows) (map key rows).
Proof.
  intros H. apply in_map_iff in H. destruct H as (r & Heq & Hin).
  pose proof (next_id_gt key rows r Hin). lia.
Qed.

Lemma NoDup_snoc {A : Type} (l : list A) (x : A) :
  NoDup l -> ~ In x l -> NoDup (l ++ [x]).
Proof.
  induction l as [| a l IH]; intros Hnd Hx; cbn [app].
  - constructor; [intros [] | constructor].
  - inversion Hnd as [| b l' Ha Hl]; subst. constructor.
    + intros Hin. apply in_app_or in Hin. destruct Hin as [Hin | [<- | []]].
      * contradiction.
      * apply Hx. left. reflexivity.
    + apply IH; [exact Hl |]. intros Hin. apply Hx. right. exact Hin.
Qed.

Lemma NoDup_map_snoc {A : Type} (key : A -> Z) (rows : list A) (r : A) :
  key r = next_id key rows ->
  NoDup (map key rows) -> NoDup (map key (rows ++ [r])).
Proof.
  intros Hk Hnd. rewrite map_app. cbn [map]. apply NoDup_snoc; [exact Hnd |].
  rewrite Hk. apply next_id_frais.
Qed.

Lemma ids_add_engagement (s : Store) (e : Engagement) :
  engagement_id e = next_id engagement_id (engagements s) ->
  ids_distincts s -> ids_distincts (add_engagement e s).
Proof.
  intros Hk (He & Hp & Hn). repeat split; cbn; auto.
  apply NoDup_map_snoc; assumption.
Qed.

Lemma ids_add_paiement (s : Store) (p : Paiement) :
  paiement_id p = next_id paiement_id (paiements s) ->
  ids_distincts s -> ids_distincts (add_paiement p s).
Proof.
  intros Hk (He & Hp & Hn). repeat split; cbn; auto.
  apply NoDup_map_snoc; assumption.
Qed.

Lemma ids_add_notification (s : Store) (n : Notification) :
  notification_id n = next_id notification_id (notifications s) ->
  ids_distincts s -> ids_distincts (add_notification n s).
Proof.
  intros Hk (He & Hp & Hn). repeat split; cbn; auto.
  apply NoDup_map_snoc; assumption.
Qed.

Lemma ids_update_paiement (s : Store) (id : Z) (f : Paiement -> Paiement) :
  (forall p, paiement_id (f p) = paiement_id p) ->
  ids_distincts s -> ids_distincts (update_paiement id f s).
Proof.
  intros Hf (He & Hp & Hn). repeat split; cbn; auto.
  rewrite map_update_key; assumption.
Qed.

Lemma ids_update_engagement (s : Store) (id : Z)
  (f : Engagement -> Engagement) :
  (forall e, engagement_id (f e) = engagement_id e) ->
  ids_distincts s -> ids_distincts (update_engagement id f s).
Proof.
  intros Hf (He & Hp & Hn). repeat split; cbn; auto.
  rewrite map_update_key; assumption.
Qed.

(** The loop of the bulk reminder writes neither to the database nor to
    the session, however it ends. *)
Lemma notifier_boucle_frame (env : Env) (es : list Engagement) :
  forall cpt w,
    db (snd (notifier_boucle env es cpt w)) = db w
    /\ session (snd (notifier_boucle env es cpt w)) = session w
    /\ flashes (snd (notifier_boucle env es cpt w)) = flashes w.
Proof.
  induction es as [| e es IH]; intros cpt w; [repeat split |].
  cbn [notifier_boucle]. view_unfold.
  destruct (engagement_membre (session w) e) as [m |]; [| apply IH].
  destruct (coordonnees_completes (Some m)); [| apply IH].
  destruct (membre_cartebapteme (session w) m) as [c |]; [| repeat split].
  match goal with
  | |- context [notifier_boucle env es (S cpt) ?w1] =>
      destruct (IH (S cpt) w1) as (H1 & H2 & H3); rewrite H1, H2, H3
  end.
  repeat split.
Qed.

Opaque next_id.

(** Closes the cases of a view for [monde_sain]. *)
Ltac sain :=
  repeat (case_step; cbn);
  unfold monde_sain; cbn; (split; [reflexivity |]);
  repeat first
    [ assumption
    | apply ids_add_engagement; [reflexivity |]
    | apply ids_add_paiement; [reflexivity |]
    | apply ids_add_notification; [reflexivity |]
    | apply ids_update_paiement; [reflexivity |]
    | apply ids_update_engagement; [reflexivity |] ].

(** X12: every view leaves the world sound. From a world whose session
    holds nothing pending and whose commitments, payments and notifications
    have distinct identifiers, each of the seven views, whatever the
    request and however it ends (redirection, page, 404 or error 500),
    reaches a world of the same kind: nothing stays pending, and the row
    that a view inserts never reuses an identifier. *)
Theorem vues_monde_sain (env : Env) (w : World) :
  monde_sain w ->
  (forall method f, monde_sain (snd (run (ajouter_engagement env method f) w)))
  /\ (forall u method f,
        monde_sain (snd (run (souscrire_engagement_membre env u method f) w)))
  /\ (forall id f, monde_sain (snd (run (modifier_engagement env id f) w)))
  /\ (forall method f, monde_sain (snd (run (ajouter_paiement env method f) w)))
  /\ (forall id f, monde_sain (snd (run (modifier_paiement env id f) w)))
  /\ (forall id, monde_sain (snd (run (notifier_membre_engagement env id) w)))
  /\ monde_sain (snd (run (notifier_tous_membres env) w)).
Proof.
  intros [Hs Hids]. destruct w as [d s l fl]. cbn in Hs, Hids. subst s.
  split; [| split; [| split; [| split; [| split; [| split]]]]]; intros.
  - unfold ajouter_engagement, ajouter_engagement_post. view_unfold.
    destruct method; cbn; sain.
  - unfold souscrire_engagement_membre. view_unfold. cbn. sain.
  - unfold modifier_engagement. view_unfold. cbn. sain.
  - unfold ajouter_paiement, ajouter_paiement_post. view_unfold.
    destruct method; cbn; sain.
  - unfold modifier_paiement. view_unfold. cbn. sain.
  - unfold notifier_membre_engagement. view_unfold. cbn. sain.
  - unfold notifier_tous_membres. view_unfold.
    destruct (notifier_boucle_frame env (engagements_non_payes d) 0%nat
                (mkWorld d d l fl)) as (H1 & H2 & _).
    cbn [session db] in *.
    destruct (notifier_boucle env (engagements_non_payes d) 0%nat
                (mkWorld d d l fl)) as [o w1].
    cbn [snd] in H1, H2.
    destruct o; cbn; unfold monde_sain; cbn; rewrite ?H1, ?H2;
      split; auto.
Qed.

Transparent next_id.

(** The theorem on [world0], which is sound. *)
Lemma vues_monde_sain_world0 :
  monde_sain (snd Scenario.paiement_total)
  /\ monde_sain (snd Scenario.rappel_tous)
  /\ monde_sain (snd (run (notifier_tous_membres Demo.env_ok) Demo.world0)).
Proof.
  assert (H0 : monde_sain Demo.world0).
  { split; [reflexivity |].
    repeat split; cbn; repeat constructor; cbn; intuition discriminate. }
  assert (H2 : monde_sain Scenario.world_deux).
  { split; [reflexivity |].
    repeat split; cbn; repeat constructor; cbn; intuition discriminate. }
  split; [| split].
  - apply (proj1 (proj2 (proj2 (proj2 (vues_monde_sain Demo.env_ok Demo.world0
                                         H0))))).
  - apply (proj2 (proj2 (proj2 (proj2 (proj2 (proj2
             (vues_monde_sain Demo.env_ok Scenario.world_deux H2))))))).
  - apply (proj2 (proj2 (proj2 (proj2 (proj2 (proj2
             (vues_monde_sain Demo.env_ok Demo.world0 H0))))))).
Defined.

(* ================================================================== *)
(** * The manual reminder never fails *)
(* ================================================================== *)

(** X13: the manual reminder of a commitment answers 404 for a commitment
    that does not exist and changes nothing; for one that exists it always
    redirects to the list, never ends in an error, and hands one message
    to the gateway exactly when the member has a key and a telephone,
    baptism card or not (the name falls back to the member code). *)
Theorem rappel_manuel_sans_erreur (env : Env) (id : Z) (w : World) :
  (query_get engagement_id (engagements (session w)) (Some id) = None ->
   run (notifier_membre_engagement env id) w = (NotFound, w))
  /\ (forall e,
        query_get engagement_id (engagements (session w)) (Some id) = Some e ->
        fst (run (notifier_membre_engagement env id) w)
        = Redirect "liste_engagements"
        /\ List.length (whatsapp (snd (run (notifier_membre_engagement env id)
                                         w)))
           = (List.length (whatsapp w)
              + (if coordonnees_completes (engagement_membre (session w) e)
                 then 1 else 0))%nat)
  /\ (forall x,
        fst (run (notifier_membre_engagement env id) w)
        <> InternalServerError x).
Proof.
  split; [| split].
  - intros H. unfold notifier_membre_engagement. view_unfold. rewrite H.
    reflexivity.
  - intros e He.
    destruct (coordonnees_completes (engagement_membre (session w) e)) eqn:Hc.
    + destruct (engagement_membre (session w) e) as [m |] eqn:Hm;
        [| discriminate Hc].
      rewrite (notifier_membre_engagement_complet env id e m w He Hm Hc).
      cbn. rewrite length_app. split; reflexivity.
    + rewrite (notifier_membre_engagement_incomplet env id e w He Hc).
      cbn. split; [reflexivity | lia].
  - intros x. unfold notifier_membre_engagement. view_unfold.
    repeat (case_step; cbn); discriminate.
Qed.

(** The theorem at Paul's commitment: no card, one message, no error. *)
Lemma rappel_manuel_sans_erreur_paul :
  fst (run (notifier_membre_engagement Demo.env_ok 2) Demo.world0)
  = Redirect "liste_engagements"
  /\ List.length
       (whatsapp (snd (run (notifier_membre_engagement Demo.env_ok 2)
                         Demo.world0)))
     = 1%nat.
Proof.
  exact (proj1 (proj2 (rappel_manuel_sans_erreur Demo.env_ok 2 Demo.world0))
           (mkEngagement 2 2 (Demo.float_of_Z 50) (mkDate 2025 4 15)
              "Chorale" EN_COURS) eq_refl).
Defined.

(* ================================================================== *)
(** * An amount that is not a number *)
(* ================================================================== *)

Lemma is_nan_Prim2SF (x : float) :
  PrimFloat.is_nan x = true <-> Prim2SF x = S754_nan.
Proof.
  unfold PrimFloat.is_nan. rewrite FloatAxioms.eqb_spec.
  destruct (Prim2SF x) as [s | s | | s m e]; cbn.
  - split; discriminate.
  - destruct s; split; discriminate.
  - split; reflexivity.
  - unfold SFeqb, SFcompare. rewrite Z.compare_refl.
    change (Pos.compare_cont Eq m m) with (Pos.compare m m).
    rewrite Pos.compare_refl. destruct s; split; discriminate.
Qed.

Lemma nan_comparisons (x : float) :
  PrimFloat.is_nan x = true ->
  (x <=? 0)%float = false /\ (0 <? x)%float = false.
Proof.
  rewrite is_nan_Prim2SF, FloatAxioms.leb_spec, FloatAxioms.ltb_spec.
  intros ->. split; reflexivity.
Qed.

(** X14: the check of the amount lets a NaN through. When [float] reads
    the submitted amount as a NaN, [montant <= 0] is false: the check
    raises nothing, and a form whose due date or payment date is refused
    is answered with the message of the date, not with the message of the
    amount, in [ajouter_engagement], [souscrire_engagement_membre],
    [modifier_engagement] and [modifier_paiement]; nothing is written on
    these paths. *)
Theorem montant_nan_passe_le_controle (env : Env) (s : string) (v : float)
  (w : World) :
  float_of_str env s = Some v ->
  PrimFloat.is_nan v = true ->
  montant_positif env (Some s) w = (Normal v, w)
  /\ (forall f m,
        ef_montant f = Some s ->
        date_refusee env (ef_date_limite f) ->
        query_get membre_id (membres (session w)) (ef_membre_id f) = Some m ->
        run (ajouter_engagement env POST f) w
        = (Redirect "ajouter_engagement",
           mkWorld (db w) (session w) (whatsapp w)
             (flashes w ++ [(Msg "Format de date incorrect", "danger")])))
  /\ (forall u f m,
        ef_montant f = Some s ->
        date_refusee env (ef_date_limite f) ->
        membre_par_telephone (session w) u = Some m ->
        run (souscrire_engagement_membre env u POST f) w
        = (Redirect "souscrire_engagement_membre",
           mkWorld (db w) (session w) (whatsapp w)
             (flashes w ++ [(Msg "Format de date incorrect", "danger")])))
  /\ (forall id f e,
        me_montant_total f = Some s ->
        date_refusee env (me_date_limite f) ->
        query_get engagement_id (engagements (session w)) (Some id) = Some e ->
        run (modifier_engagement env id f) w
        = (Redirect "liste_engagements",
           mkWorld (db w) (session w) (whatsapp w)
             (flashes w ++ [(Msg "Date invalide", "danger")])))
  /\ (forall id f p,
        mp_montant f = Some s ->
        date_refusee env (mp_date_paiement f) ->
        query_get paiement_id (paiements (session w)) (Some id) = Some p ->
        run (modifier_paiement env id f) w
        = (Redirect "liste_paiements",
           mkWorld (db w) (session w) (whatsapp w)
             (flashes w ++ [(Msg "Date incorrecte", "danger")]))).
Proof.
  intros Hv Hnan.
  assert (Hle : le0 v = false) by (apply (nan_comparisons v Hnan)).
  split; [| split; [| split; [| split]]].
  - view_unfold. rewrite Hv, Hle. reflexivity.
  - intros f m Hs Hd Hm.
    unfold ajouter_engagement, ajouter_engagement_post. view_unfold.
    unfold date_refusee in Hd. rewrite Hm, Hs, Hv, Hle.
    destruct (ef_date_limite f) as [ds |]; [rewrite Hd |]; reflexivity.
  - intros u f m Hs Hd Hm.
    unfold souscrire_engagement_membre. view_unfold.
    unfold date_refusee in Hd. rewrite Hm, Hs, Hv, Hle.
    destruct (ef_date_limite f) as [ds |]; [rewrite Hd |]; reflexivity.
  - intros id f e Hs Hd He.
    unfold modifier_engagement. view_unfold.
    unfold date_refusee in Hd. rewrite He, Hs, Hv, Hle.
    destruct (me_date_limite f) as [ds |]; [rewrite Hd |]; reflexivity.
  - intros id f p Hs Hd Hp.
    unfold modifier_paiement. view_unfold.
    unfold date_refusee in Hd. rewrite Hp, Hs, Hv, Hle.
    destruct (mp_date_paiement f) as [ds |]; [rewrite Hd |]; reflexivity.
Qed.

(** The theorem with the amount "nan": the check passes, and an edit of
    payment 1 with the date "demain" is refused for its date. *)
Lemma montant_nan_passe_le_controle_exemple :
  montant_positif env_nan (Some "nan") Demo.world0
  = (Normal PrimFloat.nan, Demo.world0)
  /\ run (modifier_paiement env_nan 1
            (mkModifierPaiementForm (Some "nan") (Some "demain")))
         (snd Scenario.paiement_total)
     = (Redirect "liste_paiements",
        mkWorld (db (snd Scenario.paiement_total))
          (session (snd Scenario.paiement_total))
          (whatsapp (snd Scenario.paiement_total))
          (flashes (snd Scenario.paiement_total)
           ++ [(Msg "Date incorrecte", "danger")])).
Proof.
  split.
  - exact (proj1 (montant_nan_passe_le_controle env_nan "nan" PrimFloat.nan
                    Demo.world0 eq_refl eq_refl)).
  - apply (proj2 (proj2 (proj2 (proj2
             (montant_nan_passe_le_controle env_nan "nan" PrimFloat.nan
                (snd Scenario.paiement_total) eq_refl eq_refl))))
             1 (mkModifierPaiementForm (Some "nan") (Some "demain"))
             (mkPaiement 1 1 (Demo.float_of_Z 100) (mkDate 2025 3 9))
             eq_refl).
    + vm_compute. reflexivity.
    + vm_compute. reflexivity.
Defined.

(* ================================================================== *)
(** * A payment and the other commitments *)
(* ================================================================== *)

(** X15: recording a payment for a commitment changes the paid sum and the
    remaining amount of no other commitment, whether the payment is
    accepted or refused. ([w] starts a request.) *)
Theorem paiement_autres_engagements (env : Env) (f : PaiementForm) (w : World)
  (e e' : Engagement) :
  session w = db w ->
  query_get engagement_id (engagements (session w)) (pf_engagement_id f)
  = Some e ->
  engagement_id e' <> engagement_id e ->
  total_paye (db (snd (run (ajouter_paiement env POST f) w))) e'
  = total_paye (db w) e'
  /\ montant_restant (db (snd (run (ajouter_paiement env POST f) w))) e'
     = montant_restant (db w) e'.
Proof.
  intros Hs He Hne. destruct w as [d s l fl]. cbn in Hs, He. subst s.
  cbn [db].
  set (w := mkWorld d d l fl).
  assert (Hcases :
    db (snd (run (ajouter_paiement env POST f) w)) = db w
    \/ exists p, pai_engagement_id p = engagement_id e
         /\ db (snd (run (ajouter_paiement env POST f) w))
            = add_paiement p (db w)).
  { subst w. unfold ajouter_paiement, ajouter_paiement_post. view_unfold.
    cbn [session db]. rewrite He.
    repeat (case_step; simpl); try (left; reflexivity);
      right; eexists; (split; [| reflexivity]); reflexivity. }
  destruct Hcases as [-> | (p & Hp & ->)]; [split; reflexivity |].
  apply total_paye_add_autre. rewrite Hp. auto.
Qed.

(** The theorem on [world0]: a payment for Kavira's commitment and the
    paid sum of Paul's. *)
Lemma paiement_autres_engagements_world0 :
  total_paye (db (snd Scenario.paiement_total))
    (mkEngagement 2 2 (Demo.float_of_Z 50) (mkDate 2025 4 15) "Chorale"
       EN_COURS)
  = 0%float
  /\ montant_restant (db (snd Scenario.paiement_total))
       (mkEngagement 2 2 (Demo.float_of_Z 50) (mkDate 2025 4 15) "Chorale"
          EN_COURS)
     = Demo.float_of_Z 50.
Proof.
  destruct (paiement_autres_engagements Demo.env_ok
              (mkPaiementForm (Some 1) (Some "100") (Some "2025-03-09"))
              Demo.world0
              (mkEngagement 1 1 (Demo.float_of_Z 100) (mkDate 2025 4 1)
                 "Construction" EN_COURS)
              (mkEngagement 2 2 (Demo.float_of_Z 50) (mkDate 2025 4 15)
                 "Chorale" EN_COURS)
              eq_refl eq_refl) as [H1 H2].
  - cbn. discriminate.
  - split; [exact H1 | exact H2].
Defined.

(* ================================================================== *)
(** * Reading back what a view inserted *)
(* ================================================================== *)

Lemma query_get_snoc_old {A : Type} (key : A -> Z) (rows : list A) (r a : A)
  (id : Z) :
  query_get key rows (Some id) = Some a ->
  query_get key (rows ++ [r]) (Some id) = Some a.
Proof.
  unfold query_get. induction rows as [| b rows IH]; cbn [find app].
  - discriminate.
  - destruct (Z.eqb (key b) id); [auto | exact IH].
Qed.

Lemma query_get_snoc_new {A : Type} (key : A -> Z) (rows : list A) (r : A) :
  key r = next_id key rows ->
  query_get key (rows ++ [r]) (Some (key r)) = Some r.
Proof.
  intros Hk. unfold query_get.
  assert (Hold : forall b, In b rows -> Z.eqb (key b) (key r) = false).
  { intros b Hb. apply Z.eqb_neq. pose proof (next_id_gt key rows b Hb). lia. }
  clear Hk. induction rows as [| b rows IH]; cbn [find app].
  - rewrite Z.eqb_refl. reflexivity.
  - rewrite (Hold b (or_introl eq_refl)). apply IH.
    intros b' Hb'. apply Hold. right. exact Hb'.
Qed.

(** X16: what a view inserts can be read back. After an accepted creation
    of a commitment, [Engagement.query.get] at the new identifier gives the
    new commitment, and at every identifier that was in use it gives the
    commitment it gave before; the same holds for [Paiement.query.get]
    after an accepted payment. *)
Theorem insertion_puis_lecture (env : Env) (w : World) :
  (forall f m v d,
     query_get membre_id (membres (session w)) (ef_membre_id f) = Some m ->
     montant_accepte env (ef_montant f) v ->
     date_acceptee env (ef_date_limite f) d ->
     query_get engagement_id
       (engagements (db (snd (run (ajouter_engagement env POST f) w))))
       (Some (engagement_id (nouvel_engagement env (session w) m v d f)))
     = Some (nouvel_engagement env (session w) m v d f)
     /\ forall id e0,
          query_get engagement_id (engagements (session w)) (Some id) = Some e0 ->
          query_get engagement_id
            (engagements (db (snd (run (ajouter_engagement env POST f) w))))
            (Some id)
          = Some e0)
  /\ (forall f e v,
        query_get engagement_id (engagements (session w)) (pf_engagement_id f)
        = Some e ->
        montant_accepte env (pf_montant f) v ->
        query_get paiement_id
          (paiements (db (snd (run (ajouter_paiement env POST f) w))))
          (Some (paiement_id (nouveau_paiement env (session w) e v f)))
        = Some (nouveau_paiement env (session w) e v f)
        /\ forall id p0,
             query_get paiement_id (paiements (session w)) (Some id) = Some p0 ->
             query_get paiement_id
               (paiements (db (snd (run (ajouter_paiement env POST f) w))))
               (Some id)
             = Some p0).
Proof.
  split.
  - intros f m v d Hm Hv Hd.
    destruct (ajouter_engagement_accepte env f w m v d Hm Hv Hd) as [-> _].
    cbn [engagements add_engagement]. split.
    + apply query_get_snoc_new. reflexivity.
    + intros id e0. apply query_get_snoc_old.
  - intros f e v He Hv.
    destruct (ajouter_paiement_accepte env f w e v He Hv) as [-> _].
    cbn [paiements add_paiement]. split.
    + apply query_get_snoc_new. reflexivity.
    + intros id p0. apply query_get_snoc_old.
Qed.

(** The theorem on [world0]: commitment 4 is created, then read, and
    commitment 1 is still there. *)
Lemma insertion_puis_lecture_world0 :
  let w' := snd (run (ajouter_engagement Demo.env_ok POST
                        (mkEngagementForm (Some 3) (Some "75")
                           (Some "2025-06-30") (Some "Toiture")))
                     Demo.world0) in
  query_get engagement_id (engagements (db w')) (Some 4)
  = Some (mkEngagement 4 3 (Demo.float_of_Z 75) (mkDate 2025 6 30) "Toiture"
            EN_COURS)
  /\ query_get engagement_id (engagements (db w')) (Some 1)
     = Some (mkEngagement 1 1 (Demo.float_of_Z 100) (mkDate 2025 4 1)
               "Construction" EN_COURS).
Proof.
  intros w'. subst w'.
  pose proof (proj1 (insertion_puis_lecture Demo.env_ok Demo.world0)
                (mkEngagementForm (Some 3) (Some "75") (Some "2025-06-30")
                   (Some "Toiture"))
                (mkMembre 3 "CBCA-VUL-0003" (Some 2) (Some "+243970000003")
                   None)
                (Demo.float_of_Z 75) (mkDate 2025 6 30) eq_refl) as H.
  destruct H as [Hnew Hold].
  - exists "75". repeat split; vm_compute; reflexivity.
  - exists "2025-06-30". split; vm_compute; reflexivity.
  - split; [exact Hnew | apply Hold; reflexivity].
Defined.

(* ================================================================== *)
(** * A commitment created with success *)
(* ================================================================== *)

(** X18: an accepted creation of a commitment by the administrator, for a
    member without messaging key, or with a key and a baptism card, is
    committed, flashed as a success and redirected to the list; the member
    with a key gets one message, addressed to the name on his card and
    giving the amount and the due date, and the member without key gets
    none. *)
Theorem engagement_cree_notifie (env : Env) (f : EngagementForm) (w : World)
  (m : Membre) (v : float) (d : date) :
  query_get membre_id (membres (session w)) (ef_membre_id f) = Some m ->
  montant_accepte env (ef_montant f) v ->
  date_acceptee env (ef_date_limite f) d ->
  (truthy (apikey_callmebot m) = false ->
   run (ajouter_engagement env POST f) w
   = (Redirect "liste_engagements",
      mkWorld
        (add_engagement (nouvel_engagement env (session w) m v d f) (session w))
        (add_engagement (nouvel_engagement env (session w) m v d f) (session w))
        (whatsapp w)
        (flashes w ++ [(Msg "Engagement ajouté avec succès!", "success")])))
  /\ (forall c,
        truthy (apikey_callmebot m) = true ->
        membre_cartebapteme (session w) m = Some c ->
        exists ok,
          run (ajouter_engagement env POST f) w
          = (Redirect "liste_engagements",
             mkWorld
               (add_engagement (nouvel_engagement env (session w) m v d f)
                  (session w))
               (add_engagement (nouvel_engagement env (session w) m v d f)
                  (session w))
               (whatsapp w
                ++ [mkEnvoi (telephone m) (apikey_callmebot m)
                      ("Bonjour " ++ str_opt (carte_nom c)
                       ++ ", vous avez un nouvel engagement de "
                       ++ fmt2f env v ++ "$ à régler avant le "
                       ++ strftime_dmy env d ++ ".")
                      ok])
               (flashes w
                ++ [(Msg "Engagement ajouté avec succès!", "success")]))).
Proof.
  intros Hm Hv Hd. split.
  - intros Hkey.
    unfold ajouter_engagement, ajouter_engagement_post, nouvel_engagement.
    view_unfold. use_cases. reflexivity.
  - intros c Hkey Hc.
    unfold ajouter_engagement, ajouter_engagement_post, nouvel_engagement.
    view_unfold. use_cases. cbn.
    unfold membre_cartebapteme in *. cbn. rewrite Hc. cbn.
    eexists. reflexivity.
Qed.

(** The theorem for Alice (no key) and for Kavira (key and card). *)
Lemma engagement_cree_notifie_world0 :
  whatsapp (snd (run (ajouter_engagement Demo.env_ok POST
                        (mkEngagementForm (Some 3) (Some "75")
                           (Some "2025-06-30") None))
                     Demo.world0))
  = []
  /\ exists ok,
       whatsapp (snd (run (ajouter_engagement Demo.env_ok POST
                             (mkEngagementForm (Some 1) (Some "75")
                                (Some "2025-06-30") None))
                          Demo.world0))
       = [mkEnvoi (Some "+243970000001") (Some "APIKEY0001")
            "Bonjour Kavira Marie, vous avez un nouvel engagement de 75.00$ à régler avant le 30/06/2025."
            ok].
Proof.
  split.
  - rewrite (proj1 (engagement_cree_notifie Demo.env_ok
                      (mkEngagementForm (Some 3) (Some "75")
                         (Some "2025-06-30") None)
                      Demo.world0
                      (mkMembre 3 "CBCA-VUL-0003" (Some 2)
                         (Some "+243970000003") None)
                      (Demo.float_of_Z 75) (mkDate 2025 6 30) eq_refl
                      (ex_intro _ "75" (conj eq_refl (conj eq_refl eq_refl)))
                      (ex_intro _ "2025-06-30" (conj eq_refl eq_refl)))
               eq_refl).
    reflexivity.
  - destruct (proj2 (engagement_cree_notifie Demo.env_ok
                       (mkEngagementForm (Some 1) (Some "75")
                          (Some "2025-06-30") None)
                       Demo.world0
                       (mkMembre 1 "CBCA-VUL-0001" (Some 1)
                          (Some "+243970000001") (Some "APIKEY0001"))
                       (Demo.float_of_Z 75) (mkDate 2025 6 30) eq_refl
                       (ex_intro _ "75" (conj eq_refl (conj eq_refl eq_refl)))
                       (ex_intro _ "2025-06-30" (conj eq_refl eq_refl)))
                (mkCarte 1 "CB001" (Some "Kavira Marie")) eq_refl eq_refl)
      as [ok Hrun].
    exists ok. rewrite Hrun. reflexivity.
Defined.

(* ================================================================== *)
(** * The status set by hand and the bulk reminder *)
(* ================================================================== *)

Lemma query_get_in {A : Type} (key : A -> Z) (rows : list A) (id : Z) (a : A) :
  query_get key rows (Some id) = Some a -> In a rows /\ key a = id.
Proof.
  unfold query_get. intros H. apply find_some in H.
  destruct H as [Hin Hk]. apply Z.eqb_eq in Hk. auto.
Qed.

(** X19: the bulk reminder follows the status that the administrator
    sets by hand. After an accepted edit that submits the status "payé",
    the commitment is no longer among those the bulk reminder goes
    through; after an accepted edit that submits no status it is among
    them again ([strip] keeps "payé" and "en cours" as they are). *)
Theorem statut_manuel_et_rappel (env : Env) (id : Z)
  (f : ModifierEngagementForm) (e : Engagement) (w : World) (v : float)
  (d : date) :
  query_get engagement_id (engagements (session w)) (Some id) = Some e ->
  montant_accepte env (me_montant_total f) v ->
  date_acceptee env (me_date_limite f) d ->
  strip env "payé" = "payé" ->
  strip env "en cours" = "en cours" ->
  (me_statut f = Some "payé" ->
   forall e', In e' (engagements_non_payes
                       (db (snd (run (modifier_engagement env id f) w)))) ->
     engagement_id e' <> id)
  /\ (me_statut f = None ->
      exists e', In e' (engagements_non_payes
                          (db (snd (run (modifier_engagement env id f) w))))
                 /\ engagement_id e' = id
                 /\ montant_total e' = v).
Proof.
  intros He Hv Hd Hp Hc.
  rewrite (modifier_engagement_run env id f e w v d He Hv Hd).
  cbn [snd db]. unfold engagements_non_payes.
  cbn [engagements update_engagement]. split.
  - intros Hs e' Hin Hid. apply filter_In in Hin. destruct Hin as [Hin Hst].
    destruct (in_update_target engagement_id id _ _ e' Hin Hid
                (fun _ => eq_refl)) as (e0 & _ & ->).
    cbn [statut] in Hst. unfold form_get_strip in Hst.
    rewrite Hs, Hp in Hst. vm_compute in Hst. discriminate Hst.
  - intros Hs. destruct (query_get_in _ _ _ _ He) as [Hin Hid].
    exists (mkEngagement (engagement_id e) (eng_membre_id e) v d
              (form_get_strip env (me_description f) "")
              (form_get_strip env (me_statut f) "en cours")).
    split; [| split; [exact Hid | reflexivity]].
    apply filter_In. split.
    + apply in_map_iff. exists e. split; [| exact Hin].
      rewrite Hid, Z.eqb_refl. reflexivity.
    + cbn [statut]. unfold form_get_strip. rewrite Hs, Hc. reflexivity.
Qed.

(** The theorem on [world0]: Kavira's commitment set to "payé" leaves the
    bulk reminder with Paul's and Alice's. *)
Lemma statut_manuel_et_rappel_world0 :
  Forall (fun e' => engagement_id e' <> 1)
    (engagements_non_payes
       (db (snd (run (modifier_engagement Demo.env_ok 1
                        (mkModifierEngagementForm (Some "100")
                           (Some "2025-04-01") (Some "Construction")
                           (Some "payé")))
                     Demo.world0)))).
Proof.
  apply Forall_forall.
  apply (proj1 (statut_manuel_et_rappel Demo.env_ok 1
                  (mkModifierEngagementForm (Some "100") (Some "2025-04-01")
                     (Some "Construction") (Some "payé"))
                  (mkEngagement 1 1 (Demo.float_of_Z 100) (mkDate 2025 4 1)
                     "Construction" EN_COURS)
                  Demo.world0 (Demo.float_of_Z 100) (mkDate 2025 4 1) eq_refl
                  (ex_intro _ "100" (conj eq_refl (conj eq_refl eq_refl)))
                  (ex_intro _ "2025-04-01" (conj eq_refl eq_refl))
                  eq_refl eq_refl)).
  reflexivity.
Defined.
